(** * Mental-Care-Bot: the chatbot's sentiment classifier, response
      arbitration and the emotion detector's aggregation

    Shallow embedding of [backend/chatbot.py], [backend/emotion_detector.py]
    and the chat endpoint of [backend/app.py].

    Conventions of the embedding.
    - A Python [str] is a [string]; messages are ASCII text, on which
      [str.lower] is the per-character map of [A-Z] to [a-z].
    - A Python exception is a value of [exn]; a call that may raise returns
      an [outcome], and [try: ... except Exception:] is a match on it.
    - [random.choice] reads its index from an explicit seed.
    - A finite Python [float] is the rational it denotes ([Q]). In
      [EmotionDetector] the operations on floats are exact; the properties
      proved there do not depend on rounding. [RoundedDetector] gives the
      same aggregation over operations that round, for the bound on the
      sum of the weights.
    - A [dict] whose iteration order matters is an association list in
      insertion order. *)

From Stdlib Require Import String Ascii List Arith ZArith Bool Lia QArith Qabs Lqa.
Import ListNotations.

Local Open Scope string_scope.
Local Open Scope nat_scope.

(** ** Python runtime pieces *)

Module Py.

Inductive exn : Type :=
| ValueError
| IndexError
| AttributeError
| ZeroDivisionError
| APIError (reason : string).

Inductive outcome (A : Type) : Type :=
| Returned (a : A)
| Raised (e : exn).
Arguments Returned {A} a.
Arguments Raised {A} e.

Definition bind {A B : Type} (m : outcome A) (k : A -> outcome B) : outcome B :=
  match m with
  | Returned a => k a
  | Raised e => Raised e
  end.

(** [try: body  except Exception: handler] *)
Definition try_except {A : Type} (body : outcome A) (handler : exn -> outcome A)
  : outcome A :=
  match body with
  | Returned a => Returned a
  | Raised e => handler e
  end.

(** [max(iterable, key=key)]: the first element whose key no later
    element exceeds ([lt] is [<] on the keys); [ValueError] on an empty
    iterable. *)
Fixpoint max_from {A K : Type} (lt : K -> K -> bool) (key : A -> K)
    (best : A) (l : list A) : A :=
  match l with
  | [] => best
  | x :: t => if lt (key best) (key x) then max_from lt key x t
              else max_from lt key best t
  end.

Definition max_key {A K : Type} (lt : K -> K -> bool) (key : A -> K)
    (l : list A) : outcome A :=
  match l with
  | [] => Raised ValueError
  | x :: t => Returned (max_from lt key x t)
  end.

(** [[f(x) for x in l]] where [f] may raise. *)
Fixpoint map_m {A B : Type} (f : A -> outcome B) (l : list A) : outcome (list B) :=
  match l with
  | [] => Returned []
  | x :: t =>
      match f x with
      | Returned y =>
          match map_m f t with
          | Returned ys => Returned (y :: ys)
          | Raised e => Raised e
          end
      | Raised e => Raised e
      end
  end.

(** [random.choice(seq)] is [seq[randbelow(len(seq))]]; the generator's
    state is the explicit [seed]. [IndexError] on an empty sequence. *)
Definition randbelow (seed n : nat) : nat := seed mod n.

Definition random_choice {A : Type} (seed : nat) (l : list A) : outcome A :=
  match nth_error l (randbelow seed (List.length l)) with
  | Some a => Returned a
  | None => Raised IndexError
  end.

(** [seq[-n:]] *)
Definition last_n {A : Type} (n : nat) (l : list A) : list A :=
  skipn (List.length l - n) l.

End Py.

Notation "x <- m ;; k" := (Py.bind m (fun x => k))
(at level 61, m at next level, right associativity).

(** ** Python string methods on ASCII text *)

Module PyStr.

Definition is_upper (c : ascii) : bool :=
  (65 <=? nat_of_ascii c) && (nat_of_ascii c <=? 90).

Definition lower_char (c : ascii) : ascii :=
  if is_upper c then ascii_of_nat (nat_of_ascii c + 32) else c.

(** [s.lower()] *)
Fixpoint lower (s : string) : string :=
  match s with
  | EmptyString => EmptyString
  | String c t => String (lower_char c) (lower t)
  end.

(** [sub in s] *)
Fixpoint contains (sub s : string) : bool :=
  if String.prefix sub s then true
  else match s with
       | EmptyString => false
       | String _ t => contains sub t
       end.

(** [c.isspace()] on ASCII: TAB..CR, FS..US and the blank. *)
Definition is_space (c : ascii) : bool :=
  let n := nat_of_ascii c in
  ((9 <=? n) && (n <=? 13)) || ((28 <=? n) && (n <=? 32)).

Fixpoint lstrip (s : string) : string :=
  match s with
  | EmptyString => EmptyString
  | String c t => if is_space c then lstrip t else s
  end.

Fixpoint rstrip (s : string) : string :=
  match s with
  | EmptyString => EmptyString
  | String c t =>
      match rstrip t with
      | EmptyString => if is_space c then EmptyString else String c EmptyString
      | t' => String c t'
      end
  end.

(** [s.strip()] *)
Definition strip (s : string) : string := rstrip (lstrip s).

(** [s.split()]: the maximal runs of non-blank characters. [cur] is the
    word being read, reversed. *)
Fixpoint rev_string (acc s : string) : string :=
  match s with
  | EmptyString => acc
  | String c t => rev_string (String c acc) t
  end.

Definition flush (cur : string) (words : list string) : list string :=
  match cur with
  | EmptyString => words
  | _ => rev_string EmptyString cur :: words
  end.

Fixpoint split_from (cur : string) (s : string) : list string :=
  match s with
  | EmptyString => flush cur []
  | String c t =>
      if is_space c then flush cur (split_from EmptyString t)
      else split_from (String c cur) t
  end.

Definition split (s : string) : list string := split_from EmptyString s.

(** [any(w in s for w in words)] *)
Definition any_in (words : list string) (s : string) : bool :=
  existsb (fun w => contains w s) words.

(** [sum(1 for w in words if w in s)] *)
Definition count_in (words : list string) (s : string) : nat :=
  List.length (filter (fun w => contains w s) words).

End PyStr.

(** ** backend/emotion_detector.py *)

Module EmotionDetector.
Import Py.
Local Open Scope Q_scope.

Definition emotion_labels : list string :=
  ["angry"; "disgust"; "fear"; "happy"; "sad"; "surprise"; "neutral"]%string.

(** A dict from emotion label to score, in insertion order. *)
Definition EmotionMap : Type := list (string * Q).

(** [emotion in aggregated] *)
Definition has_key (emotion : string) (aggregated : EmotionMap) : bool :=
  existsb (fun kv => (fst kv =? emotion)%string) aggregated.

(** [aggregated[emotion]] for a key of the dict (0 stands in elsewhere). *)
Fixpoint get (emotion : string) (aggregated : EmotionMap) : Q :=
  match aggregated with
  | [] => 0
  | (k, v) :: t => if (k =? emotion)%string then v else get emotion t
  end.

(** [aggregated[emotion] += value] *)
Fixpoint add_to (emotion : string) (value : Q) (aggregated : EmotionMap) : EmotionMap :=
  match aggregated with
  | [] => []
  | (k, v) :: t =>
      if (k =? emotion)%string then (k, v + value) :: t
      else (k, v) :: add_to emotion value t
  end.

(** The inner loop: one face's scores added into [aggregated]. *)
Definition add_face (aggregated : EmotionMap) (emotions : EmotionMap) : EmotionMap :=
  fold_left (fun agg kv => if has_key (fst kv) agg
                           then add_to (fst kv) (snd kv) agg else agg)
            emotions aggregated.

(** [aggregated] after the outer loop. *)
Definition label_sums (emotion_list : list EmotionMap) : EmotionMap :=
  fold_left add_face emotion_list (map (fun emotion => (emotion, 0)) emotion_labels).

(** [sum(values)] *)
Definition py_sum (values : list Q) : Q := fold_left Qplus values 0.

(** [a < b] *)
Definition Qltb (a b : Q) : bool := negb (Qle_bool b a).

(** [a / b] *)
Definition true_div (a b : Q) : outcome Q :=
  if Qeq_bool b 0 then Raised ZeroDivisionError else Returned (a / b).

(** [total] of [_aggregate_emotions]. *)
Definition total_of (emotion_list : list EmotionMap) : Q :=
  py_sum (map snd (label_sums emotion_list)).

Definition _aggregate_emotions (emotion_list : list EmotionMap) : outcome EmotionMap :=
  let aggregated := label_sums emotion_list in
  let total := py_sum (map snd aggregated) in
  if Qltb 0 total then
    map_m (fun kv => q <- true_div (snd kv) total ;; Returned (fst kv, q)) aggregated
  else Returned aggregated.

(** The result dict of [detect_emotions]. *)
Record Detection : Type :=
  { faces_detected : nat;
    dominant_emotion : string;
    emotions : EmotionMap;
    confidence : Q;
    error : option exn }.

(** [detect_emotions] from the point where the faces have been scored:
    [faces] is [len(faces)] and [all_emotions] the per-face score maps
    collected by the loop. The whole body sits in a [try]. *)
Definition detect_emotions (faces : nat) (all_emotions : list EmotionMap) : Detection :=
  let body : outcome Detection :=
    if (faces =? 0)%nat then
      Returned {| faces_detected := 0; dominant_emotion := "neutral";
                  emotions := [("neutral"%string, 1)]; confidence := 0; error := None |}
    else
      match all_emotions with
      | [] =>
          Returned {| faces_detected := faces; dominant_emotion := "neutral";
                      emotions := [("neutral"%string, 1)]; confidence := 0;
                      error := None |}
      | _ =>
          aggregated <- _aggregate_emotions all_emotions ;;
          dominant <- max_key Qltb snd aggregated ;;
          Returned {| faces_detected := faces; dominant_emotion := fst dominant;
                      emotions := aggregated; confidence := snd dominant;
                      error := None |}
      end in
  match body with
  | Returned d => d
  | Raised e =>
      {| faces_detected := 0; dominant_emotion := "neutral";
         emotions := [("neutral"%string, 1)]; confidence := 0; error := Some e |}
  end.

(** Input predicates of the claims. *)
Definition nonneg_scores (emotion_list : list EmotionMap) : Prop :=
  forall emotions, In emotions emotion_list ->
  forall kv, In kv emotions -> 0 <= snd kv.

Definition has_negative (emotion_list : list EmotionMap) : Prop :=
  exists emotions kv, In emotions emotion_list /\ In kv emotions /\ snd kv < 0.

End EmotionDetector.

(** ** backend/chatbot.py *)

Module Chatbot.
Import Py PyStr.

(** The sentiment labels ['crisis'], ['stress'], ... the classifier
    returns and the response tree compares against. *)
Inductive Sentiment : Type :=
| Crisis | Stress | Sadness | Anger | Fear | Neutral.

Definition sentiment_eqb (a b : Sentiment) : bool :=
  match a, b with
  | Crisis, Crisis | Stress, Stress | Sadness, Sadness
  | Anger, Anger | Fear, Fear | Neutral, Neutral => true
  | _, _ => false
  end.

Definition stress_keywords : list string :=
  ["stressed"; "overwhelmed"; "pressure"; "anxious"; "worried"; "panic";
   "tension"; "nervous"; "worries"; "stressing"; "overwhelm"].
Definition sadness_keywords : list string :=
  ["sad"; "depressed"; "down"; "hopeless"; "empty"; "lonely"; "miserable";
   "unhappy"; "sorrow"; "grief"; "melancholy"; "blue"; "downhearted"].
Definition anger_keywords : list string :=
  ["angry"; "furious"; "mad"; "frustrated"; "annoyed"; "irritated"; "rage";
   "livid"; "enraged"; "resentful"; "bitter"; "hostile"].
Definition fear_keywords : list string :=
  ["afraid"; "scared"; "fear"; "terrified"; "worried"; "nervous"; "anxious";
   "panic"; "dread"; "apprehensive"; "frightened"; "intimidated"].
Definition crisis_keywords : list string :=
  ["suicide"; "kill myself"; "end it all"; "not worth living"; "want to die";
   "hurt myself"; "self harm"; "cutting"; "overdose"].

(** The [sentiment] dict of [_analyze_sentiment], in insertion order. *)
Definition sentiment_scores (message_lower : string) : list (Sentiment * nat) :=
  [ (Crisis,  count_in crisis_keywords message_lower);
    (Stress,  count_in stress_keywords message_lower);
    (Sadness, count_in sadness_keywords message_lower);
    (Anger,   count_in anger_keywords message_lower);
    (Fear,    count_in fear_keywords message_lower);
    (Neutral, 0) ].

(** [sentiment[k]] *)
Definition score (k : Sentiment) (scores : list (Sentiment * nat)) : nat :=
  match find (fun kv => sentiment_eqb (fst kv) k) scores with
  | Some kv => snd kv
  | None => 0
  end.

Definition _analyze_sentiment (message : string) : outcome Sentiment :=
  let message_lower := lower message in
  let sentiment := sentiment_scores message_lower in
  if 0 <? score Crisis sentiment then Returned Crisis
  else
    max_sentiment <- max_key Nat.ltb snd
      (filter (fun kv => negb (sentiment_eqb (fst kv) Crisis)) sentiment) ;;
    Returned (if 0 <? snd max_sentiment then fst max_sentiment else Neutral).

Definition crisis_indicators : list string :=
  ["suicide"; "kill myself"; "end it all"; "not worth living";
   "want to die"; "hurt myself"; "self harm"; "cutting";
   "overdose"; "no point"; "give up"; "end my life"].

Definition detect_crisis (message : string) : bool :=
  any_in crisis_indicators (lower message).

(** *** Data passed to the chatbot *)

(** An entry of [emotion_history]: the dict the store returns for one
    logged detection. Only the ['dominant_emotion'] key is read here;
    [None] stands for an entry without that key. *)
Record EmotionRecord : Type := { dominant_emotion : option string }.

(** An entry of [conversation_history]; a field is [None] when the dict
    has no such key. *)
Record HistoryMessage : Type :=
  { role : option string; content : option string }.

(** [emotional_context]: the dict with keys ['current'] and
    ['recent_pattern']. *)
Record EmotionalContext : Type :=
  { current : option string; recent_pattern : option string }.

(** Truth value of an optional string: [None] and [''] are false. *)
Definition truthy (o : option string) : bool :=
  match o with
  | Some s => negb (s =? "")%string
  | None => false
  end.

(** [collections.Counter(iterable)]: label counts, keys in the order they
    were first seen. *)
Fixpoint counter_add (x : string) (c : list (string * nat)) : list (string * nat) :=
  match c with
  | [] => [(x, 1)]
  | (k, n) :: t => if (k =? x)%string then (k, S n) :: t else (k, n) :: counter_add x t
  end.

Definition Counter (l : list string) : list (string * nat) :=
  fold_left (fun c x => counter_add x c) l [].

(** [Counter.most_common(1)], which is [heapq.nlargest(1, items, key=count)]:
    [max] of the items by count, or the empty list. *)
Definition most_common_1 (c : list (string * nat)) : list (string * nat) :=
  match c with
  | [] => []
  | x :: t => [max_from Nat.ltb snd x t]
  end.

(** [[e.get('dominant_emotion', 'neutral') for e in emotion_history[-5:]]] *)
Definition recent_emotions_of (emotion_history : list EmotionRecord) : list string :=
  map (fun e => match dominant_emotion e with
                | Some d => d
                | None => "neutral"
                end) (last_n 5 emotion_history).

Definition _build_emotional_context
    (current_emotion : option string) (emotion_history : option (list EmotionRecord))
  : EmotionalContext :=
  let cur := if truthy current_emotion then current_emotion else None in
  match emotion_history with
  | Some ((_ :: _) as history) =>
      let recent_emotions := recent_emotions_of history in
      match recent_emotions with
      | [] => {| current := cur; recent_pattern := None |}
      | _ =>
          match most_common_1 (Counter recent_emotions) with
          | [] => {| current := cur; recent_pattern := None |}
          | top :: _ => {| current := cur; recent_pattern := Some (fst top) |}
          end
      end
  | _ => {| current := cur; recent_pattern := None |}
  end.

(** *** The generative collaborator *)

Record ChatMessage : Type := { msg_role : string; msg_content : string }.

Record CompletionRequest : Type :=
  { model : string;
    messages : list ChatMessage;
    temperature : Q;
    max_tokens : nat }.

(** [response.choices[i].message.content], [None] when the content is. *)
Record Choice : Type := { message_content : option string }.
Record ChatCompletion : Type := { choices : list Choice }.

(** [client.chat.completions.create]: answers or raises. *)
Definition Client : Type := CompletionRequest -> outcome ChatCompletion.

(** [self] of [TherapeuticChatbot]. *)
Record TherapeuticChatbot : Type :=
  { system_prompt : string; openai_client : option Client }.

Definition nl : string := String (ascii_of_nat 10) EmptyString.
Definition dq : string := String (ascii_of_nat 34) EmptyString.

Definition _get_therapeutic_system_prompt : string :=
  ("You are a compassionate, empathetic AI mental health support assistant. Your role is to:" ++ nl
  ++ nl
  ++ "1. Provide emotional support and validation" ++ nl
  ++ "2. Use reflective listening techniques" ++ nl
  ++ "3. Ask open-ended questions to help users explore their feelings" ++ nl
  ++ "4. Show empathy and understanding without judgment" ++ nl
  ++ "5. Encourage users to express themselves safely" ++ nl
  ++ "6. Recognize when professional help may be needed" ++ nl
  ++ "7. Never diagnose or provide medical advice" ++ nl
  ++ "8. Use warm, supportive, and professional language" ++ nl
  ++ nl
  ++ "Guidelines:" ++ nl
  ++ "- Acknowledge the user's feelings first" ++ nl
  ++ "- Use " ++ dq ++ "I" ++ dq ++ " statements when appropriate" ++ nl
  ++ "- Avoid giving direct advice; instead, help users find their own solutions" ++ nl
  ++ "- Be patient and allow silence/processing time" ++ nl
  ++ "- Validate emotions without minimizing them" ++ nl
  ++ "- Use therapeutic techniques like reflection, reframing, and normalization" ++ nl
  ++ nl
  ++ "Remember: You are not a replacement for professional therapy, but you can provide supportive listening and emotional validation.")%string.

(** [__init__], given the client it managed to build (or none). *)
Definition init (client : option Client) : TherapeuticChatbot :=
  {| system_prompt := _get_therapeutic_system_prompt; openai_client := client |}.

(** *** Response pools of [_generate_rule_based_response] *)

Definition crisis_responses : list string :=
  [ "I'm really concerned about what you're sharing. Your life has value, and there are people who want to help. Please reach out to a crisis helpline right now: National Suicide Prevention Lifeline at 988, or Crisis Text Line by texting HOME to 741741. You don't have to go through this alone.";
    "I hear that you're in a lot of pain right now, and I'm worried about you. Please know that there is help available. If you're in immediate danger, please call 911 or go to your nearest emergency room. You can also call the National Suicide Prevention Lifeline at 988 - they're available 24/7.";
    "Thank you for sharing this with me. I want you to know that your feelings are valid, but I'm very concerned about your safety. Please reach out for immediate professional help. Call 988 (Suicide Prevention Lifeline) or 911 if you're in immediate danger. There are people trained to help you through this." ].

Definition greeting_responses : list string :=
  [ "Hello. I'm here to listen and support you. How are you feeling today? You can share whatever's on your mind, and I'll be here with you.";
    "Hi there. Thank you for reaching out. I'm here to provide a safe space for you to express yourself. What's on your mind today?";
    "Hello. I'm glad you're here. This is a judgment-free space where you can share your thoughts and feelings. How are you doing today?" ].

Definition stress_responses : list string :=
  [ "I can hear that you're feeling stressed right now. That sounds really difficult. Can you tell me more about what's contributing to these feelings?";
    "It sounds like you're experiencing a lot of pressure. That must be overwhelming. What would help you feel a bit more grounded right now?";
    "I understand that stress can feel consuming. You're not alone in feeling this way. What's one thing that's been weighing on you the most?" ].

Definition sadness_responses : list string :=
  [ "I hear the sadness in what you're sharing. Thank you for trusting me with these feelings. Can you help me understand what's been making you feel this way?";
    "It sounds like you're going through a really tough time. Your feelings are valid, and I'm here to listen. What's been on your mind lately?";
    "I can sense that you're feeling down. That must be really hard. Would you like to talk about what's been contributing to these feelings?" ].

Definition anger_responses : list string :=
  [ "I can hear the frustration in your words. It sounds like something has really upset you. Can you help me understand what happened?";
    "It seems like you're feeling angry, and that's completely understandable. What's been making you feel this way?";
    "I hear that you're frustrated. Those feelings are valid. Would you like to talk about what's been bothering you?" ].

Definition fear_responses : list string :=
  [ "I can sense that you're feeling afraid or worried. That must be really unsettling. Can you tell me more about what's causing these feelings?";
    "It sounds like fear is really present for you right now. That's a difficult emotion to sit with. What would help you feel a bit safer?";
    "I hear that you're feeling scared. Thank you for sharing that with me. What's been making you feel this way?" ].

Definition feeling_probe : string :=
  "I appreciate you sharing how you're feeling. Can you tell me more about what's behind these feelings? Sometimes exploring them can help us understand ourselves better.".

Definition listening_prompt : string :=
  "I'm listening. Can you tell me more about what's on your mind?".

(** The pool built in the mismatch branch; [emotion] is
    [emotional_context['current']], interpolated into the first string. *)
Definition mismatch_responses (emotion : string) : list string :=
  [ ("I hear you say you're doing okay, and I want to respect that. I'm also noticing that you might be feeling " ++ emotion ++ " right now. Sometimes it can be hard to put words to our feelings. Would you like to talk about what's going on?")%string;
    "Thank you for sharing. I want to acknowledge that sometimes our words and our feelings don't always match up, and that's okay. If you'd like to explore what you're experiencing, I'm here to listen.";
    "I hear you, and I also notice there might be more going on beneath the surface. Would you like to talk about what you're really feeling right now?" ].

Definition reflective_responses : list string :=
  [ "Thank you for sharing that with me. It sounds like that's been really significant for you. Can you help me understand more about how that's been affecting you?";
    "I hear what you're saying. It sounds like this is something that's been on your mind. Can you tell me more about what that's been like for you?";
    "That sounds really important to you. What's it been like for you to experience that?";
    "I appreciate you opening up about this. How have you been coping with these feelings?";
    "It sounds like this has been weighing on you. What would it mean for you if things were different?";
    "I'm listening, and I want to make sure I understand. Can you help me see this from your perspective?";
    "That sounds challenging. What's been the hardest part about this for you?";
    "Thank you for trusting me with this. What do you think might help you feel a bit better?" ].

(** *** Response selection *)

(** [_select_response]: the branch on [emotional_context['current']] is a
    [pass]; the answer is [random.choice(responses)]. *)
Definition _select_response (seed : nat) (responses : list string)
    (emotional_context : EmotionalContext) : outcome string :=
  random_choice seed responses.

Definition _generate_rule_based_response (seed : nat) (message : string)
    (sentiment : Sentiment) (emotional_context : EmotionalContext) : outcome string :=
  let message_lower := lower message in
  if sentiment_eqb sentiment Crisis then
    _select_response seed crisis_responses emotional_context
  else if any_in ["hello"; "hi"; "hey"; "start"; "begin"] message_lower then
    _select_response seed greeting_responses emotional_context
  else if sentiment_eqb sentiment Stress
          || contains "stressed" message_lower || contains "anxious" message_lower then
    _select_response seed stress_responses emotional_context
  else if sentiment_eqb sentiment Sadness
          || contains "sad" message_lower || contains "depressed" message_lower then
    _select_response seed sadness_responses emotional_context
  else if sentiment_eqb sentiment Anger
          || contains "angry" message_lower || contains "frustrated" message_lower then
    _select_response seed anger_responses emotional_context
  else if sentiment_eqb sentiment Fear
          || contains "afraid" message_lower || contains "scared" message_lower then
    _select_response seed fear_responses emotional_context
  else if any_in ["feel"; "feeling"; "emotion"] message_lower then
    Returned feeling_probe
  else if List.length (split message) <? 5 then
    Returned listening_prompt
  else
    let mismatch :=
      match current emotional_context with
      | Some emotion =>
          if negb (emotion =? "")%string && negb (emotion =? "neutral")%string
             && (contains "fine" message_lower || contains "okay" message_lower
                 || contains "ok" message_lower)
          then Some (mismatch_responses emotion)
          else None
      | None => None
      end in
    match mismatch with
    | Some pool => _select_response seed pool emotional_context
    | None => _select_response seed reflective_responses emotional_context
    end.

Definition crisis_warning : string :=
  (nl ++ nl ++ "⚠️ CRISIS DETECTED: The user may be in crisis. Respond with immediate concern, validation, and provide crisis resources. Be supportive but also encourage professional help.")%string.

(** The system message: the prompt, the note on the emotional context and
    the crisis warning. *)
Definition system_content_of (self : TherapeuticChatbot) (sentiment : Sentiment)
    (emotional_context : EmotionalContext) : string :=
  let with_context :=
    if truthy (current emotional_context) || truthy (recent_pattern emotional_context) then
      let note0 := (nl ++ nl ++ "User's current emotional state: ")%string in
      let note1 :=
        match current emotional_context with
        | Some c => if truthy (Some c)
                    then (note0 ++ "detected emotion: " ++ c ++ ". ")%string else note0
        | None => note0
        end in
      let note2 :=
        match recent_pattern emotional_context with
        | Some r => if truthy (Some r)
                    then (note1 ++ "Recent emotional pattern: " ++ r ++ ". ")%string else note1
        | None => note1
        end in
      (system_prompt self ++ note2)%string
    else system_prompt self in
  if sentiment_eqb sentiment Crisis then (with_context ++ crisis_warning)%string
  else with_context.

(** The [messages] list sent to the model: system message, the last ten
    turns of the history, the new user message. *)
Definition build_messages (self : TherapeuticChatbot) (message : string)
    (sentiment : Sentiment) (emotional_context : EmotionalContext)
    (conversation_history : option (list HistoryMessage)) : list ChatMessage :=
  let system := {| msg_role := "system";
                   msg_content := system_content_of self sentiment emotional_context |} in
  let history :=
    match conversation_history with
    | Some h =>
        map (fun msg =>
               {| msg_role := match role msg with
                              | Some r => if (r =? "user")%string then "user" else "assistant"
                              | None => "assistant"
                              end;
                  msg_content := match content msg with
                                 | Some c => c
                                 | None => ""
                                 end |})
            (last_n 10 h)
    | None => []
    end in
  (system :: history) ++ [ {| msg_role := "user"; msg_content := message |} ].

Definition build_request (self : TherapeuticChatbot) (message : string)
    (sentiment : Sentiment) (emotional_context : EmotionalContext)
    (conversation_history : option (list HistoryMessage)) : CompletionRequest :=
  {| model := "gpt-3.5-turbo";
     messages := build_messages self message sentiment emotional_context conversation_history;
     temperature := 7 # 10;
     max_tokens := 300 |}.

(** [response.choices[0].message.content.strip()] *)
Definition first_content (response : ChatCompletion) : outcome string :=
  match choices response with
  | [] => Raised IndexError
  | c :: _ =>
      match message_content c with
      | Some text => Returned (strip text)
      | None => Raised AttributeError
      end
  end.

(** The body of the [try] of [_generate_openai_response]; [client] is
    [self.openai_client]. *)
Definition openai_attempt (self : TherapeuticChatbot) (client : Client)
    (message : string) (sentiment : Sentiment) (emotional_context : EmotionalContext)
    (conversation_history : option (list HistoryMessage)) : outcome string :=
  response <- client (build_request self message sentiment emotional_context
                                    conversation_history) ;;
  first_content response.

Definition _generate_openai_response (self : TherapeuticChatbot) (client : Client)
    (seed : nat) (message : string) (sentiment : Sentiment)
    (emotional_context : EmotionalContext)
    (conversation_history : option (list HistoryMessage)) : outcome string :=
  try_except
    (openai_attempt self client message sentiment emotional_context conversation_history)
    (fun _ => _generate_rule_based_response seed message sentiment emotional_context).

Definition generate_response (self : TherapeuticChatbot) (seed : nat)
    (message : string) (current_emotion : option string)
    (emotion_history : option (list EmotionRecord))
    (conversation_history : option (list HistoryMessage)) : outcome string :=
  sentiment <- _analyze_sentiment message ;;
  let emotional_context := _build_emotional_context current_emotion emotion_history in
  match openai_client self with
  | Some client =>
      _generate_openai_response self client seed message sentiment emotional_context
                                conversation_history
  | None => _generate_rule_based_response seed message sentiment emotional_context
  end.

End Chatbot.

(** ** backend/app.py: the chat endpoint *)

Module App.
Import Py PyStr Chatbot.

Inductive HttpReply : Type :=
| Ok200 (response : string) (crisis_detected : bool)
| Error400 (error : string)
| Error500 (error : exn).

(** [chat_message], with what the store returned for the session
    ([emotion_history], [conversation_history]) as inputs. *)
Definition chat_message (chatbot : TherapeuticChatbot) (seed : nat)
    (data_message : string) (current_emotion : option string)
    (emotion_history : list EmotionRecord)
    (conversation_history : list HistoryMessage) : HttpReply :=
  let message := strip data_message in
  if (message =? "")%string then Error400 "Message cannot be empty"
  else
    let is_crisis := detect_crisis message in
    match generate_response chatbot seed message current_emotion
                            (Some emotion_history) (Some conversation_history) with
    | Returned response => Ok200 response is_crisis
    | Raised e => Error500 e
    end.

End App.

(** * Properties *)

(** ** Strings: what [in] and [lower] compute *)

Module PyStrFacts.
Import PyStr.

Lemma prefix_app (p s : string) :
  String.prefix p s = true <-> exists t, s = (p ++ t)%string.
Proof.
  revert s. induction p as [|c p IH]; intros s.
  - split; [intros _; now exists s | intros _; now destruct s].
  - destruct s as [|d s]; simpl.
    + split; [discriminate | intros [t Ht]; discriminate Ht].
    + destruct (ascii_dec c d) as [->|Hne].
      * rewrite IH. split; intros [t Ht]; exists t.
        -- now rewrite Ht.
        -- now inversion Ht.
      * split; [discriminate | intros [t Ht]; inversion Ht; congruence].
Qed.

(** [sub in s] holds exactly when [s] is [a ++ sub ++ b]. *)
Lemma contains_spec (sub s : string) :
  contains sub s = true <-> exists a b, s = (a ++ sub ++ b)%string.
Proof.
  induction s as [|c s IH]; cbn [contains].
  - destruct (String.prefix sub "") eqn:Hp.
    + apply prefix_app in Hp. destruct Hp as [t Ht].
      split; [intros _; exists ""%string, t; exact Ht | reflexivity].
    + split; [discriminate|]. intros (a & b & Hab).
      destruct a; [|discriminate Hab]. simpl in Hab.
      assert (String.prefix sub "" = true) by (apply prefix_app; now exists b).
      congruence.
  - destruct (String.prefix sub (String c s)) eqn:Hp.
    + apply prefix_app in Hp. destruct Hp as [t Ht].
      split; [intros _; exists ""%string, t; exact Ht | reflexivity].
    + rewrite IH. split.
      * intros (a & b & ->). now exists (String c a), b.
      * intros (a & b & Hab). destruct a as [|d a]; simpl in Hab.
        -- assert (String.prefix sub (String c s) = true)
             by (apply prefix_app; now exists b).
           congruence.
        -- inversion Hab; subst. now exists a, b.
Qed.

Lemma lower_app (a b : string) : lower (a ++ b) = (lower a ++ lower b)%string.
Proof. induction a as [|c a IH]; simpl; [reflexivity | now rewrite IH]. Qed.

(** A split of [lower m] comes from a split of [m]. *)
Lemma lower_split (m x y : string) :
  lower m = (x ++ y)%string ->
  exists m1 m2, m = (m1 ++ m2)%string /\ lower m1 = x /\ lower m2 = y.
Proof.
  revert m. induction x as [|c x IH]; intros m H; simpl in H.
  - now exists ""%string, m.
  - destruct m as [|d m]; [discriminate H|]. simpl in H. inversion H; subst.
    destruct (IH m H2) as (m1 & m2 & -> & H1 & H3).
    exists (String d m1), m2. simpl. now rewrite H1, H3.
Qed.

(** [phrase] occurs in [message] up to letter case: some substring of the
    message is the phrase once both are lowered. *)
Definition occurs_ci (phrase message : string) : Prop :=
  exists a s b, message = (a ++ s ++ b)%string /\ lower s = lower phrase.

Lemma contains_lower_iff (phrase message : string) :
  contains (lower phrase) (lower message) = true <-> occurs_ci phrase message.
Proof.
  rewrite contains_spec. split.
  - intros (a & b & H).
    apply lower_split in H. destruct H as (m1 & m2 & -> & <- & H).
    apply lower_split in H. destruct H as (m3 & m4 & -> & H & <-).
    now exists m1, m3, m4.
  - intros (a & s & b & -> & H).
    exists (lower a), (lower b). now rewrite !lower_app, H.
Qed.

Lemma any_in_spec (words : list string) (s : string) :
  any_in words s = true <-> exists w, In w words /\ contains w s = true.
Proof. unfold any_in. apply existsb_exists. Qed.

Lemma count_in_pos (words : list string) (s : string) :
  0 < count_in words s <-> any_in words s = true.
Proof.
  unfold count_in, any_in. induction words as [|w ws IH]; simpl.
  - split; [lia | discriminate].
  - destruct (contains w s); simpl; [split; [reflexivity | lia] | exact IH].
Qed.

Lemma count_in_zero (words : list string) (s : string) :
  count_in words s = 0 <-> any_in words s = false.
Proof.
  pose proof (count_in_pos words s) as H.
  destruct (any_in words s); split; intro E; try reflexivity; try discriminate.
  - assert (0 < count_in words s) by now apply H. lia.
  - destruct (count_in words s); [reflexivity|].
    assert (false = true) by (apply H; lia). discriminate.
Qed.

End PyStrFacts.

(** ** The sentiment classifier *)

Module ClassifierFacts.
Import Py PyStr PyStrFacts Chatbot.

(** The vocabulary scored for each category. *)
Definition keywords (c : Sentiment) : list string :=
  match c with
  | Crisis => crisis_keywords
  | Stress => stress_keywords
  | Sadness => sadness_keywords
  | Anger => anger_keywords
  | Fear => fear_keywords
  | Neutral => []
  end.

(** The hit count of a category: how many of its keywords occur in the
    lowered message. *)
Definition hits (c : Sentiment) (message : string) : nat :=
  count_in (keywords c) (lower message).

(** The categories that compete by count, and their rank in a tie. *)
Definition scored : list Sentiment := [Stress; Sadness; Anger; Fear].

Definition priority (c : Sentiment) : nat :=
  match c with
  | Stress => 0 | Sadness => 1 | Anger => 2 | Fear => 3
  | Crisis | Neutral => 4
  end.

(** The classifier's answer as a value; [analyze_returns] shows that the
    classifier never raises. *)
Definition sentiment_of (message : string) : Sentiment :=
  match _analyze_sentiment message with
  | Returned s => s
  | Raised _ => Neutral
  end.

Lemma analyze_unfold (message : string) :
  _analyze_sentiment message =
  if 0 <? hits Crisis message then Returned Crisis
  else
    let best := max_from Nat.ltb snd (Stress, hits Stress message)
                  [(Sadness, hits Sadness message); (Anger, hits Anger message);
                   (Fear, hits Fear message); (Neutral, 0)] in
    Returned (if 0 <? snd best then fst best else Neutral).
Proof. reflexivity. Qed.

Lemma analyze_returns (message : string) :
  _analyze_sentiment message = Returned (sentiment_of message).
Proof.
  unfold sentiment_of. rewrite analyze_unfold.
  destruct (0 <? hits Crisis message); reflexivity.
Qed.

Lemma keywords_lowercase (c : Sentiment) (w : string) :
  In w (keywords c) -> lower w = w.
Proof.
  destruct c; simpl;
    repeat (intros [<-|H]; [reflexivity | revert H]); intros [].
Qed.

Lemma indicators_lowercase (w : string) :
  In w crisis_indicators -> lower w = w.
Proof.
  simpl. repeat (intros [<-|H]; [reflexivity | revert H]). intros [].
Qed.

(** A positive crisis count is the occurrence of a crisis phrase. *)
Lemma crisis_hits_pos (message : string) :
  0 < hits Crisis message <->
  exists phrase, In phrase crisis_keywords /\ occurs_ci phrase message.
Proof.
  unfold hits. rewrite count_in_pos, any_in_spec. simpl keywords.
  split; intros (w & Hin & Hw); exists w; split; trivial.
  - apply contains_lower_iff. now rewrite (keywords_lowercase Crisis).
  - apply contains_lower_iff in Hw. now rewrite (keywords_lowercase Crisis) in Hw.
Qed.

Lemma crisis_hits_zero (message : string) :
  hits Crisis message = 0 <->
  forall phrase, In phrase crisis_keywords -> ~ occurs_ci phrase message.
Proof.
  split.
  - intros H0 p Hin Hoc.
    assert (0 < hits Crisis message) by (apply crisis_hits_pos; eauto). lia.
  - intros H. destruct (hits Crisis message) eqn:E; [reflexivity|].
    assert (Hpos : 0 < hits Crisis message) by lia.
    apply crisis_hits_pos in Hpos. destruct Hpos as (p & Hin & Hoc).
    now elim (H p Hin).
Qed.

(** The classifier says crisis exactly when the crisis count is positive. *)
Lemma analyze_crisis_iff (message : string) :
  _analyze_sentiment message = Returned Crisis <-> 0 < hits Crisis message.
Proof.
  rewrite analyze_unfold.
  destruct (Nat.ltb_spec 0 (hits Crisis message)) as [Hpos|Hz].
  - split; [intros _; exact Hpos | reflexivity].
  - split; [|lia]. cbn [max_from snd fst]. intros H. exfalso.
    repeat match type of H with
           | context [if ?b then _ else _] => destruct b; cbn [snd fst] in H
           end; discriminate H.
Qed.

(** C2. A message that contains a crisis phrase, in any letter case, is
    classified as crisis, whatever the other categories' keyword counts. *)
Theorem crisis_phrase_overrides (message : string) :
  (exists phrase, In phrase crisis_keywords /\ occurs_ci phrase message) ->
  _analyze_sentiment message = Returned Crisis.
Proof.
  intros H. apply analyze_crisis_iff. now apply crisis_hits_pos.
Qed.

Lemma crisis_phrase_overrides_witness :
  hits Stress "Stressed, anxious and worried: I Want To Die" = 3 /\
  _analyze_sentiment "Stressed, anxious and worried: I Want To Die" = Returned Crisis.
Proof.
  split; [reflexivity|].
  apply (crisis_phrase_overrides "Stressed, anxious and worried: I Want To Die").
  exists "want to die"%string. split.
  - simpl. tauto.
  - exists "Stressed, anxious and worried: I "%string, "Want To Die"%string, ""%string.
    split; reflexivity.
Defined.

(** C9. Without a crisis phrase the classifier returns the category of
    stress, sadness, anger and fear with the highest hit count, the
    earlier one in that order on a tie, and neutral when every count is
    zero. *)
Theorem highest_count_wins (message : string) :
  (forall phrase, In phrase crisis_keywords -> ~ occurs_ci phrase message) ->
  exists c,
    _analyze_sentiment message = Returned c /\
    ((forall k, In k scored -> hits k message = 0) -> c = Neutral) /\
    ((exists k, In k scored /\ 0 < hits k message) ->
       In c scored /\
       0 < hits c message /\
       (forall k, In k scored -> hits k message <= hits c message) /\
       (forall k, In k scored -> hits k message = hits c message ->
                  priority c <= priority k)).
Proof.
  intros Hno. apply crisis_hits_zero in Hno.
  rewrite analyze_unfold, Hno, Nat.ltb_irrefl. cbn [max_from snd fst].
  assert (Hall : forall P : Sentiment -> Prop,
             (forall k, In k scored -> P k) ->
             P Stress /\ P Sadness /\ P Anger /\ P Fear)
    by (intros P HP; repeat split; apply HP; simpl; tauto).
  repeat match goal with
         | |- context [hits ?c message <? ?y] =>
             destruct (Nat.ltb_spec (hits c message) y)
         end;
    try (exfalso; lia); cbn [snd fst];
    match goal with
    | |- context [0 <? ?y] => destruct (Nat.ltb_spec 0 y)
    end;
    eexists; (split; [reflexivity|]); split.
  all: try (intros Hz; apply Hall in Hz; first [reflexivity | exfalso; lia]).
  all: intros (k & Hk & Hpos); cbn [scored In] in Hk.
  all: try (exfalso; decompose [or] Hk; subst; try contradiction; lia).
  all: split; [simpl; tauto|]; split; [lia|].
  all: split; intros k' Hk'; cbn [scored In] in Hk';
    decompose [or] Hk'; subst; cbn [priority]; try contradiction; lia.
Qed.

Lemma highest_count_wins_witness :
  exists c,
    _analyze_sentiment "worried and nervous" = Returned c /\
    ((forall k, In k scored -> hits k "worried and nervous" = 0) -> c = Neutral) /\
    ((exists k, In k scored /\ 0 < hits k "worried and nervous") ->
       In c scored /\
       0 < hits c "worried and nervous" /\
       (forall k, In k scored ->
                  hits k "worried and nervous" <= hits c "worried and nervous") /\
       (forall k, In k scored ->
                  hits k "worried and nervous" = hits c "worried and nervous" ->
                  priority c <= priority k)).
Proof.
  apply (highest_count_wins "worried and nervous").
  apply crisis_hits_zero. reflexivity.
Defined.

(** On that message stress and fear tie with two hits each, and stress is
    returned. *)
Example tie_goes_to_stress :
  hits Stress "worried and nervous" = 2 /\
  hits Fear "worried and nervous" = 2 /\
  _analyze_sentiment "worried and nervous" = Returned Stress.
Proof. repeat split. Qed.

End ClassifierFacts.

(** ** Response arbitration *)

Module ArbitrationFacts.
Import Py PyStr PyStrFacts Chatbot ClassifierFacts.

Lemma sentiment_eqb_eq (a b : Sentiment) : sentiment_eqb a b = true <-> a = b.
Proof. destruct a, b; simpl; split; intro H; try reflexivity; discriminate H. Qed.

Lemma random_choice_in {A : Type} (seed : nat) (l : list A) (r : A) :
  random_choice seed l = Returned r -> In r l.
Proof.
  unfold random_choice.
  destruct (nth_error l (randbelow seed (List.length l))) eqn:E; [|discriminate].
  intros H. inversion H; subst. eapply nth_error_In; eassumption.
Qed.

(** [random.choice] of a non-empty pool returns one of its members. *)
Lemma random_choice_returns {A : Type} (seed : nat) (l : list A) :
  l <> [] -> exists r, random_choice seed l = Returned r /\ In r l.
Proof.
  intros Hne. unfold random_choice, randbelow.
  destruct (nth_error l (seed mod List.length l)) eqn:E.
  - exists a. split; [reflexivity | eapply nth_error_In; eassumption].
  - exfalso. apply nth_error_None in E.
    assert (List.length l <> 0) by (destruct l; [congruence | discriminate]).
    pose proof (Nat.mod_upper_bound seed (List.length l)). lia.
Qed.

(** Every member of the pool is the choice for some seed. *)
Lemma random_choice_reaches {A : Type} (l : list A) (r : A) :
  In r l -> exists seed, random_choice seed l = Returned r.
Proof.
  intros Hin. apply In_nth_error in Hin. destruct Hin as [i Hi].
  exists i. unfold random_choice, randbelow.
  assert (i < List.length l) by (apply nth_error_Some; congruence).
  now rewrite Nat.mod_small, Hi.
Qed.

(** The pools other than the crisis pool; the two fixed replies count as
    one-element pools. *)
Definition non_crisis_pool (pool : list string) : Prop :=
  pool = greeting_responses \/ pool = stress_responses \/
  pool = sadness_responses \/ pool = anger_responses \/
  pool = fear_responses \/ pool = [feeling_probe] \/
  pool = [listening_prompt] \/ (exists emotion, pool = mismatch_responses emotion) \/
  pool = reflective_responses.

Lemma non_crisis_pool_disjoint (pool : list string) (r : string) :
  non_crisis_pool pool -> In r pool -> ~ In r crisis_responses.
Proof.
  unfold non_crisis_pool. intros Hpool Hr.
  decompose [or] Hpool; clear Hpool;
    try match goal with H : exists _, _ |- _ => destruct H as [emotion H] end;
    subst pool; cbn [In greeting_responses stress_responses sadness_responses
                     anger_responses fear_responses mismatch_responses
                     reflective_responses] in Hr;
    decompose [or] Hr; clear Hr; try contradiction; subst r;
    unfold crisis_responses; cbn [In];
    intros Hin; decompose [or] Hin; clear Hin; try contradiction;
    match goal with H : _ = _ |- _ => solve [inversion H] end.
Qed.

(** The rule-based tree always answers, from the crisis pool when the
    sentiment is crisis and from one of the other pools when it is not. *)
Lemma rule_based_spec (seed : nat) (message : string) (sentiment : Sentiment)
    (ctx : EmotionalContext) :
  exists pool r,
    _generate_rule_based_response seed message sentiment ctx = Returned r /\
    In r pool /\
    ((sentiment = Crisis /\ pool = crisis_responses) \/
     (sentiment <> Crisis /\ non_crisis_pool pool)).
Proof.
  assert (Hpick : forall pool, pool <> [] ->
            (sentiment = Crisis /\ pool = crisis_responses) \/
            (sentiment <> Crisis /\ non_crisis_pool pool) ->
            exists pool' r, random_choice seed pool = Returned r /\ In r pool' /\
              ((sentiment = Crisis /\ pool' = crisis_responses) \/
               (sentiment <> Crisis /\ non_crisis_pool pool'))).
  { intros pool Hne Hc. destruct (random_choice_returns seed pool Hne) as (r & Hr & Hin).
    now exists pool, r. }
  unfold _generate_rule_based_response, _select_response.
  destruct (sentiment_eqb sentiment Crisis) eqn:Ec.
  - apply sentiment_eqb_eq in Ec. apply Hpick; [discriminate | now left].
  - assert (Hnc : sentiment <> Crisis)
      by (intros ->; discriminate Ec).
    unfold non_crisis_pool in *.
    repeat match goal with
           | |- context [if ?b then _ else _] => destruct b
           end;
      try (apply Hpick; [discriminate | right; split; [exact Hnc | tauto]]).
    + exists [feeling_probe], feeling_probe. cbn [In]. tauto.
    + exists [listening_prompt], listening_prompt. cbn [In]. tauto.
    + destruct (current ctx) as [emotion|].
      * destruct (negb (emotion =? "")%string && negb (emotion =? "neutral")%string
                  && (contains "fine" (lower message) || contains "okay" (lower message)
                      || contains "ok" (lower message))).
        -- apply Hpick; [discriminate | right; split; [exact Hnc|]].
           do 7 right. left. now exists emotion.
        -- apply Hpick; [discriminate | right; split; [exact Hnc | tauto]].
      * apply Hpick; [discriminate | right; split; [exact Hnc | tauto]].
Qed.

(** The request [generate_response] sends for a message. *)
Definition request_of (self : TherapeuticChatbot) (message : string)
    (current_emotion : option string) (emotion_history : option (list EmotionRecord))
    (conversation_history : option (list HistoryMessage)) : CompletionRequest :=
  build_request self message (sentiment_of message)
    (_build_emotional_context current_emotion emotion_history) conversation_history.

(** The ways the generative collaborator can fail on a request: it is not
    configured, its call raises (network error, timeout), or its answer
    is malformed (no choice, or a choice without content). *)
Inductive generator_fails (self : TherapeuticChatbot) (request : CompletionRequest)
  : Prop :=
| not_configured :
    openai_client self = None -> generator_fails self request
| call_raises (client : Client) (e : exn) :
    openai_client self = Some client ->
    client request = Raised e -> generator_fails self request
| malformed_response (client : Client) (response : ChatCompletion) (e : exn) :
    openai_client self = Some client ->
    client request = Returned response ->
    first_content response = Raised e -> generator_fails self request.

Lemma generate_response_unfold (self : TherapeuticChatbot) (seed : nat)
    (message : string) (cur : option string) (eh : option (list EmotionRecord))
    (ch : option (list HistoryMessage)) :
  generate_response self seed message cur eh ch =
  let rule_based :=
    _generate_rule_based_response seed message (sentiment_of message)
                                  (_build_emotional_context cur eh) in
  match openai_client self with
  | Some client =>
      match client (request_of self message cur eh ch) with
      | Returned response =>
          match first_content response with
          | Returned text => Returned text
          | Raised _ => rule_based
          end
      | Raised _ => rule_based
      end
  | None => rule_based
  end.
Proof.
  unfold generate_response. rewrite analyze_returns. cbn [bind].
  destruct (openai_client self) as [client|]; [|reflexivity].
  unfold _generate_openai_response, openai_attempt, request_of, try_except, bind.
  destruct (client _) as [response|e]; [|reflexivity].
  destruct (first_content response); reflexivity.
Qed.

Lemma failure_takes_rule_path (self : TherapeuticChatbot) (seed : nat)
    (message : string) (cur : option string) (eh : option (list EmotionRecord))
    (ch : option (list HistoryMessage)) :
  generator_fails self (request_of self message cur eh ch) ->
  generate_response self seed message cur eh ch =
  _generate_rule_based_response seed message (sentiment_of message)
                                (_build_emotional_context cur eh).
Proof.
  intros Hf. rewrite generate_response_unfold. cbv zeta.
  destruct Hf as [Hn | client e Hc He | client response e Hc Hr He].
  - now rewrite Hn.
  - now rewrite Hc, He.
  - now rewrite Hc, Hr, He.
Qed.

(** The crisis warning is the only trace of a crisis on the generative
    path: it is appended to the system message. *)
Lemma crisis_only_marks_prompt (self : TherapeuticChatbot) (ctx : EmotionalContext) :
  system_content_of self Crisis ctx
  = (system_content_of self Neutral ctx ++ crisis_warning)%string.
Proof. reflexivity. Qed.

(** *** C3 *)

(** C3. When the generative collaborator fails in any way (not
    configured, the call raises, or the answer is malformed),
    [generate_response] returns the rule-based response and raises
    nothing. *)
Theorem generator_failure_falls_back (self : TherapeuticChatbot) (seed : nat)
    (message : string) (cur : option string) (eh : option (list EmotionRecord))
    (ch : option (list HistoryMessage)) :
  generator_fails self (request_of self message cur eh ch) ->
  exists response,
    generate_response self seed message cur eh ch = Returned response /\
    _generate_rule_based_response seed message (sentiment_of message)
      (_build_emotional_context cur eh) = Returned response.
Proof.
  intros Hf. rewrite (failure_takes_rule_path _ _ _ _ _ _ Hf).
  destruct (rule_based_spec seed message (sentiment_of message)
              (_build_emotional_context cur eh)) as (pool & r & Hr & _).
  now exists r.
Qed.

(** A generator that times out on every call. *)
Definition timing_out : Client := fun _ => Raised (APIError "timeout").

Lemma generator_failure_falls_back_witness :
  exists response,
    generate_response (init (Some timing_out)) 0 "I'm stressed about work"
                      None (Some []) (Some []) = Returned response /\
    _generate_rule_based_response 0 "I'm stressed about work"
      (sentiment_of "I'm stressed about work")
      (_build_emotional_context None (Some [])) = Returned response.
Proof.
  apply (generator_failure_falls_back (init (Some timing_out)) 0
           "I'm stressed about work" None (Some []) (Some [])).
  apply (call_raises _ _ timing_out (APIError "timeout")); reflexivity.
Defined.

(** The fallback scenario of the specification: the answer comes from
    the stress pool. *)
Example fallback_answers_from_stress_pool (seed : nat) :
  exists response,
    generate_response (init (Some timing_out)) seed "I'm stressed about work"
                      None (Some []) (Some []) = Returned response /\
    In response stress_responses.
Proof.
  destruct (random_choice_returns seed stress_responses) as (r & Hr & Hin);
    [discriminate|].
  exists r. split; [exact Hr | exact Hin].
Qed.

(** *** C1 *)

(** A generator that answers every request. *)
Definition healthy : Client :=
  fun _ => Returned {| choices := [ {| message_content := Some " I am here for you. " |} ] |}.

(** C1, as stated, fails: with a configured and healthy generator a
    message classified as crisis is answered by the generator, not from
    the crisis pool. *)
Lemma crisis_reaches_generator :
  _analyze_sentiment "I want to die" = Returned Crisis /\
  generate_response (init (Some healthy)) 0 "I want to die" None None None
  = Returned "I am here for you."%string /\
  ~ In "I am here for you."%string crisis_responses.
Proof.
  split; [reflexivity|]. split; [reflexivity|].
  cbn [In crisis_responses]. intros H.
  decompose [or] H; try contradiction; discriminate.
Qed.

(** C1, amended. On the rule-based path, that is when the generator is
    not configured or fails, the answer is drawn from the crisis pool if
    and only if the classifier returns crisis. When the generator is
    configured and answers, its trimmed text is the reply whatever the
    classifier returned. *)
Theorem crisis_pool_iff_crisis_on_rule_path (self : TherapeuticChatbot)
    (seed : nat) (message : string) (cur : option string)
    (eh : option (list EmotionRecord)) (ch : option (list HistoryMessage)) :
  (generator_fails self (request_of self message cur eh ch) ->
   exists response,
     generate_response self seed message cur eh ch = Returned response /\
     (In response crisis_responses <-> _analyze_sentiment message = Returned Crisis))
  /\
  (forall client response text,
     openai_client self = Some client ->
     client (request_of self message cur eh ch) = Returned response ->
     first_content response = Returned text ->
     generate_response self seed message cur eh ch = Returned text).
Proof.
  split.
  - intros Hf. rewrite (failure_takes_rule_path _ _ _ _ _ _ Hf).
    destruct (rule_based_spec seed message (sentiment_of message)
                (_build_emotional_context cur eh))
      as (pool & r & Hr & Hin & Hcase).
    exists r. split; [exact Hr|]. rewrite analyze_returns.
    destruct Hcase as [[Hs ->] | [Hs Hpool]].
    + split; [intros _; now rewrite Hs | intros _; exact Hin].
    + split.
      * intros Hc. now elim (non_crisis_pool_disjoint pool r Hpool Hin).
      * intros H. inversion H. contradiction.
  - intros client response text Hc Hr Ht.
    rewrite generate_response_unfold. cbv zeta. now rewrite Hc, Hr, Ht.
Qed.

Lemma crisis_pool_iff_crisis_on_rule_path_witness :
  exists response,
    generate_response (init None) 1 "I want to die" (Some "sad") None None
    = Returned response /\
    (In response crisis_responses <->
     _analyze_sentiment "I want to die" = Returned Crisis).
Proof.
  apply (crisis_pool_iff_crisis_on_rule_path (init None) 1 "I want to die"
           (Some "sad"%string) None None).
  apply not_configured. reflexivity.
Defined.

(** *** C4 *)

(** The conditions of the branches that the rule-based tree tries before
    the mismatch check, in the order of the source. *)
Definition earlier_branch_fires (message : string) (sentiment : Sentiment) : bool :=
  let message_lower := lower message in
  sentiment_eqb sentiment Crisis
  || any_in ["hello"; "hi"; "hey"; "start"; "begin"] message_lower
  || (sentiment_eqb sentiment Stress
      || contains "stressed" message_lower || contains "anxious" message_lower)
  || (sentiment_eqb sentiment Sadness
      || contains "sad" message_lower || contains "depressed" message_lower)
  || (sentiment_eqb sentiment Anger
      || contains "angry" message_lower || contains "frustrated" message_lower)
  || (sentiment_eqb sentiment Fear
      || contains "afraid" message_lower || contains "scared" message_lower)
  || any_in ["feel"; "feeling"; "emotion"] message_lower
  || (List.length (split message) <? 5).

(** The message reports itself as fine. *)
Definition says_fine (message : string) : bool :=
  contains "fine" (lower message) || contains "okay" (lower message)
  || contains "ok" (lower message).

Definition sad_context : EmotionalContext :=
  {| current := Some "sad"%string; recent_pattern := None |}.

(** C4, as stated, fails: the message of the scenario contains the
    greeting word [hi] (inside [everything]), so the greeting branch
    answers; the answer is not in the mismatch pool and does not name
    the emotion. *)
Lemma mismatch_scenario_gets_greeting :
  _build_emotional_context (Some "sad"%string) None = sad_context /\
  _analyze_sentiment "I'm fine, everything is okay" = Returned Neutral /\
  contains "hi" (lower "I'm fine, everything is okay") = true /\
  exists r,
    _generate_rule_based_response 0 "I'm fine, everything is okay" Neutral sad_context
    = Returned r /\
    In r greeting_responses /\
    ~ In r (mismatch_responses "sad") /\
    contains "sad" r = false.
Proof.
  repeat (split; [reflexivity|]).
  eexists. split; [reflexivity|]. split; [cbn [In greeting_responses]; tauto|].
  split; [|reflexivity].
  cbn [In mismatch_responses]. intros H.
  decompose [or] H; try contradiction; discriminate.
Qed.

(** Whatever the seed, that scenario is answered from the greeting pool. *)
Lemma mismatch_scenario_always_greeting (seed : nat) :
  exists r,
    generate_response (init None) seed "I'm fine, everything is okay"
                      (Some "sad"%string) None None = Returned r /\
    In r greeting_responses.
Proof.
  destruct (random_choice_returns seed greeting_responses) as (r & Hr & Hin);
    [discriminate|].
  exists r. split; [exact Hr | exact Hin].
Qed.

(** C4, amended. With the detected emotion [sad] and a message that says
    fine, okay or ok and on which no earlier branch fires, the answer is
    drawn from the mismatch pool; each of its three strings can be the
    answer, and only the first of them names [sad]. *)
Theorem mismatch_pool_when_reached (seed : nat) (message : string)
    (sentiment : Sentiment) (ctx : EmotionalContext) :
  current ctx = Some "sad"%string ->
  earlier_branch_fires message sentiment = false ->
  says_fine message = true ->
  (exists r,
     _generate_rule_based_response seed message sentiment ctx = Returned r /\
     In r (mismatch_responses "sad") /\
     (contains "sad" r = true <-> r = nth 0 (mismatch_responses "sad") ""%string))
  /\
  (forall r, In r (mismatch_responses "sad") ->
     exists seed', _generate_rule_based_response seed' message sentiment ctx = Returned r).
Proof.
  intros Hcur Hearly Hfine.
  unfold earlier_branch_fires in Hearly. cbv zeta in Hearly.
  repeat match type of Hearly with
         | (_ || _) = false =>
             apply orb_false_iff in Hearly;
             let H := fresh "Hb" in destruct Hearly as [Hearly H]
         end.
  assert (Hrule : forall seed0,
            _generate_rule_based_response seed0 message sentiment ctx
            = random_choice seed0 (mismatch_responses "sad")).
  { intros seed0. unfold _generate_rule_based_response, _select_response.
    cbv zeta. rewrite Hearly, Hb, Hb0, Hb1, Hb2, Hb3, Hb4, Hb5, Hcur.
    unfold says_fine in Hfine. now rewrite Hfine. }
  split.
  - rewrite Hrule.
    destruct (random_choice_returns seed (mismatch_responses "sad"))
      as (r & Hr & Hin); [discriminate|].
    exists r. split; [exact Hr|]. split; [exact Hin|].
    cbn [In mismatch_responses] in Hin.
    decompose [or] Hin; try contradiction; subst r;
      (split; [intros H; first [reflexivity | discriminate H]
              | intros H; first [reflexivity | discriminate H]]).
  - intros r Hin. destruct (random_choice_reaches _ r Hin) as [seed' Hs].
    exists seed'. now rewrite Hrule.
Qed.

Lemma mismatch_pool_when_reached_witness :
  (exists r,
     _generate_rule_based_response 0 "I'm fine, all is okay now" Neutral sad_context
     = Returned r /\
     In r (mismatch_responses "sad") /\
     (contains "sad" r = true <-> r = nth 0 (mismatch_responses "sad") ""%string))
  /\
  (forall r, In r (mismatch_responses "sad") ->
     exists seed', _generate_rule_based_response seed' "I'm fine, all is okay now"
                     Neutral sad_context = Returned r).
Proof.
  apply (mismatch_pool_when_reached 0 "I'm fine, all is okay now" Neutral sad_context);
    reflexivity.
Defined.

(** *** C10 *)

Lemma crisis_keywords_are_indicators (w : string) :
  In w crisis_keywords -> In w crisis_indicators.
Proof.
  cbn [In crisis_keywords crisis_indicators]. intros H.
  decompose [or] H; try contradiction; subst; tauto.
Qed.

(** The standalone detector fires exactly when an indicator occurs in the
    message, in any letter case. *)
Lemma detect_crisis_spec (message : string) :
  detect_crisis message = true <->
  exists w, In w crisis_indicators /\ occurs_ci w message.
Proof.
  unfold detect_crisis. rewrite any_in_spec.
  split; intros (w & Hin & Hw); exists w; split; trivial.
  - apply contains_lower_iff. now rewrite (indicators_lowercase w Hin).
  - apply contains_lower_iff in Hw. now rewrite (indicators_lowercase w Hin) in Hw.
Qed.

(** C10. Whenever the classifier returns crisis the standalone detector
    returns true. The converse fails: a message with [no point],
    [give up] or [end my life] sets the detector, those phrases alone are
    not classified as crisis, and the chat endpoint then reports
    [crisis_detected] with a reply that is not from the crisis pool. *)
Theorem classifier_crisis_implies_detector :
  (forall message,
     _analyze_sentiment message = Returned Crisis -> detect_crisis message = true)
  /\
  (forall phrase message,
     In phrase ["no point"; "give up"; "end my life"]%string ->
     occurs_ci phrase message -> detect_crisis message = true)
  /\
  (forall phrase,
     In phrase ["no point"; "give up"; "end my life"]%string ->
     detect_crisis phrase = true /\ _analyze_sentiment phrase <> Returned Crisis)
  /\
  (forall seed cur eh ch,
     App.chat_message (init None) seed "I give up" cur eh ch
     = App.Ok200 listening_prompt true /\
     ~ In listening_prompt crisis_responses).
Proof.
  split; [|split; [|split]].
  - intros message H. apply analyze_crisis_iff, crisis_hits_pos in H.
    destruct H as (w & Hin & Hoc). apply detect_crisis_spec.
    exists w. split; [now apply crisis_keywords_are_indicators | exact Hoc].
  - intros phrase message Hin Hoc. apply detect_crisis_spec.
    exists phrase. split; [|exact Hoc].
    cbn [In crisis_indicators] in *. decompose [or] Hin; try contradiction; subst; tauto.
  - intros phrase Hin. cbn [In] in Hin.
    decompose [or] Hin; try contradiction; subst phrase;
      (split; [reflexivity | vm_compute; discriminate]).
  - intros seed cur eh ch. split; [reflexivity|].
    cbn [In crisis_responses]. intros H.
    decompose [or] H; try contradiction; discriminate.
Qed.

Lemma classifier_crisis_implies_detector_witness :
  _analyze_sentiment "I want to die" = Returned Crisis /\
  detect_crisis "I want to die" = true.
Proof.
  split; [reflexivity|].
  apply (proj1 classifier_crisis_implies_detector "I want to die"). reflexivity.
Defined.

End ArbitrationFacts.

(** ** Context fusion: the recent facial pattern *)

Module FusionFacts.
Import Py PyStr Chatbot.
Local Open Scope list_scope.

(** How often a label occurs in the window. *)
Definition occurrences (labels : list string) (x : string) : nat :=
  count_occ string_dec labels x.

(** [c[k]] for a counter (0 for a missing key). *)
Fixpoint lookup (k : string) (c : list (string * nat)) : nat :=
  match c with
  | [] => 0
  | (k', n) :: t => if (k' =? k)%string then n else lookup k t
  end.

Lemma counter_add_lookup (x k : string) (c : list (string * nat)) :
  lookup k (counter_add x c)
  = if (x =? k)%string then S (lookup x c) else lookup k c.
Proof.
  induction c as [|[k' n] t IH]; simpl.
  - destruct (String.eqb_spec x k); reflexivity.
  - destruct (String.eqb_spec k' x) as [->|Hx]; simpl.
    + destruct (String.eqb_spec x k); reflexivity.
    + rewrite IH. destruct (String.eqb_spec k' k) as [->|Hk].
      * destruct (String.eqb_spec x k); [congruence | reflexivity].
      * reflexivity.
Qed.

Lemma counter_add_known (x : string) (c : list (string * nat)) :
  In x (map fst c) -> map fst (counter_add x c) = map fst c.
Proof.
  induction c as [|[k n] t IH]; simpl; [tauto|].
  intros Hin. destruct (String.eqb_spec k x) as [->|Hne]; simpl; [reflexivity|].
  f_equal. apply IH. destruct Hin; [contradiction | assumption].
Qed.

Lemma counter_add_fresh (x : string) (c : list (string * nat)) :
  ~ In x (map fst c) -> counter_add x c = c ++ [(x, 1)].
Proof.
  induction c as [|[k n] t IH]; simpl; [reflexivity|].
  intros Hnin. destruct (String.eqb_spec k x) as [->|Hne]; [tauto|].
  f_equal. apply IH. tauto.
Qed.

Lemma Counter_snoc (l : list string) (x : string) :
  Counter (l ++ [x]) = counter_add x (Counter l).
Proof. unfold Counter. now rewrite fold_left_app. Qed.

Lemma occurrences_snoc (l : list string) (x k : string) :
  occurrences (l ++ [x]) k
  = if (x =? k)%string then S (occurrences l k) else occurrences l k.
Proof.
  unfold occurrences. rewrite count_occ_app. simpl.
  destruct (string_dec x k) as [->|Hne].
  - rewrite String.eqb_refl. lia.
  - destruct (String.eqb_spec x k); [contradiction | lia].
Qed.

Lemma lookup_in (k : string) (n : nat) (c : list (string * nat)) :
  NoDup (map fst c) -> In (k, n) c -> lookup k c = n.
Proof.
  induction c as [|[k' n'] t IH]; simpl; [tauto|].
  intros Hnd [Heq|Hin].
  - inversion Heq; subst. now rewrite String.eqb_refl.
  - inversion Hnd as [|? ? Hnot Hnd']; subst.
    destruct (String.eqb_spec k' k) as [->|Hne].
    + exfalso. apply Hnot. change k with (fst (k, n)). now apply in_map.
    + now apply IH.
Qed.

(** What [Counter labels] holds: each label of the window once, with its
    number of occurrences, in the order of first occurrence. *)
Lemma Counter_spec (labels : list string) :
  NoDup (map fst (Counter labels)) /\
  (forall k, lookup k (Counter labels) = occurrences labels k) /\
  (forall k, In k (map fst (Counter labels)) <-> In k labels) /\
  (forall k1 k k2, map fst (Counter labels) = k1 ++ k :: k2 ->
     exists pre post, labels = pre ++ k :: post /\ ~ In k pre /\
                      (forall x, In x pre -> In x k1)).
Proof.
  induction labels as [|x l IH] using rev_ind.
  - repeat split; simpl; try tauto; try constructor.
    intros k1 k k2 H. destruct k1; discriminate H.
  - destruct IH as (Hnd & Hlk & Hkeys & Hord).
    rewrite Counter_snoc.
    destruct (in_dec string_dec x (map fst (Counter l))) as [Hin|Hnin].
    + rewrite (counter_add_known x _ Hin). repeat split.
      * exact Hnd.
      * intros k. rewrite counter_add_lookup, occurrences_snoc.
        destruct (String.eqb_spec x k); subst; now rewrite Hlk.
      * rewrite in_app_iff, Hkeys. cbn [In]. tauto.
      * rewrite in_app_iff, <- Hkeys. cbn [In].
        intros [H|[<-|[]]]; assumption.
      * intros k1 k k2 H. destruct (Hord k1 k k2 H) as (pre & post & -> & Hn & Hp).
        exists pre, (post ++ [x]). rewrite <- app_assoc. simpl. tauto.
    + rewrite (counter_add_fresh x _ Hnin), map_app. cbn [map fst]. repeat split.
      * apply NoDup_app; [exact Hnd | repeat constructor; simpl; tauto |].
        intros a Ha [<-|[]]. contradiction.
      * intros k. rewrite <- (counter_add_fresh x _ Hnin).
        rewrite counter_add_lookup, occurrences_snoc.
        destruct (String.eqb_spec x k); subst; now rewrite Hlk.
      * rewrite !in_app_iff, Hkeys. cbn [In]. tauto.
      * rewrite !in_app_iff, Hkeys. cbn [In]. tauto.
      * intros k1 k k2 H. destruct k2 as [|z k2] using rev_ind.
        -- apply app_inj_tail in H. destruct H as [<- <-].
           exists l, []. split; [reflexivity|]. rewrite <- Hkeys.
           split; [exact Hnin|]. intros y Hy. now apply Hkeys.
        -- clear IHk2.
           change (k1 ++ k :: k2 ++ [z]) with (k1 ++ (k :: k2) ++ [z]) in H.
           rewrite app_assoc in H. apply app_inj_tail in H. destruct H as [H _].
           destruct (Hord k1 k k2 H) as (pre & post & -> & Hn & Hp).
           exists pre, (post ++ [x]). rewrite <- app_assoc. simpl. tauto.
Qed.

(** [max] returns the first element that holds the greatest key: the
    elements before it have smaller keys, those after it none greater. *)
Lemma max_from_spec {A : Type} (key : A -> nat) (best : A) (l : list A) :
  exists c1 c2,
    best :: l = c1 ++ max_from Nat.ltb key best l :: c2 /\
    (forall y, In y c1 -> key y < key (max_from Nat.ltb key best l)) /\
    (forall y, In y c2 -> key y <= key (max_from Nat.ltb key best l)).
Proof.
  revert best. induction l as [|x t IH]; intros best; cbn [max_from].
  - exists [], []. simpl. tauto.
  - destruct (Nat.ltb_spec (key best) (key x)) as [Hlt|Hge].
    + destruct (IH x) as (c1 & c2 & Heq & H1 & H2).
      exists (best :: c1), c2. split; [now rewrite Heq|]. split; [|exact H2].
      intros y [<-|Hy]; [|now apply H1].
      assert (Hx : In x (c1 ++ max_from Nat.ltb key x t :: c2))
        by (rewrite <- Heq; now left).
      apply in_app_iff in Hx. destruct Hx as [Hx|[Hx|Hx]].
      * specialize (H1 x Hx). lia.
      * rewrite Hx. exact Hlt.
      * specialize (H2 x Hx). lia.
    + destruct (IH best) as (c1 & c2 & Heq & H1 & H2).
      destruct c1 as [|b c1]; simpl in Heq; injection Heq as Hb Ht.
      * exists [], (x :: t). simpl. split; [now rewrite <- Hb|]. split; [tauto|].
        intros y [<-|Hy]; [rewrite <- Hb; exact Hge|]. apply H2. now rewrite <- Ht.
      * exists (best :: x :: c1), c2. split; [simpl; now rewrite <- Ht|].
        split; [|exact H2].
        assert (Hbest : key best < key (max_from Nat.ltb key best t))
          by (apply H1; left; now symmetry).
        intros y [<-|[<-|Hy]]; [exact Hbest | lia | apply H1; now right].
Qed.

Lemma last_n_nonempty {A : Type} (n : nat) (l : list A) :
  0 < n -> l <> [] -> last_n n l <> [].
Proof.
  intros Hn Hl H. unfold last_n in H.
  assert (Hlen : List.length (skipn (List.length l - n) l) = 0) by now rewrite H.
  rewrite length_skipn in Hlen.
  destruct l as [|a l]; [congruence|].
  change (List.length (a :: l)) with (S (List.length l)) in Hlen. lia.
Qed.

(** With a non-empty history the pattern is the label [max] picks from
    the counter of the window. *)
Lemma recent_pattern_eq (cur : option string) (history : list EmotionRecord) :
  history <> [] ->
  exists top rest,
    Counter (recent_emotions_of history) = top :: rest /\
    recent_pattern (_build_emotional_context cur (Some history))
    = Some (fst (max_from Nat.ltb snd top rest)).
Proof.
  intros Hne.
  assert (Hw : recent_emotions_of history <> []).
  { unfold recent_emotions_of. intros H. apply map_eq_nil in H.
    revert H. apply last_n_nonempty; [lia | exact Hne]. }
  destruct (Counter_spec (recent_emotions_of history)) as (_ & _ & Hkeys & _).
  destruct (Counter (recent_emotions_of history)) as [|top rest] eqn:EC.
  - exfalso. destruct (recent_emotions_of history) as [|x w]; [congruence|].
    apply (proj2 (Hkeys x)). now left.
  - exists top, rest. split; [reflexivity|].
    unfold _build_emotional_context. destruct history as [|e h]; [congruence|].
    destruct (recent_emotions_of (e :: h)) as [|x w]; [congruence|].
    rewrite EC. reflexivity.
Qed.

(** The window of the tie example. *)
Definition tie_window : list EmotionRecord :=
  map (fun d => {| dominant_emotion := Some d |})
      ["sad"; "happy"; "sad"; "angry"; "happy"]%string.

(** C8, as stated, fails: on the window sad, happy, sad, angry, happy the
    labels sad and happy both occur twice, happy occurs last, and the
    pattern is sad. *)
Lemma tie_window_resolves_to_sad :
  recent_emotions_of tie_window = ["sad"; "happy"; "sad"; "angry"; "happy"]%string /\
  occurrences (recent_emotions_of tie_window) "sad" = 2 /\
  occurrences (recent_emotions_of tie_window) "happy" = 2 /\
  recent_pattern (_build_emotional_context None (Some tie_window)) = Some "sad"%string /\
  recent_pattern (_build_emotional_context None (Some tie_window)) <> Some "happy"%string.
Proof.
  repeat (split; [reflexivity|]). vm_compute. discriminate.
Qed.

(** C8, amended. For a non-empty history the recent pattern is the most
    frequent label among the last five records, and among the labels of
    that frequency the one that occurs first in the window: every label
    ahead of its first occurrence is strictly less frequent. *)
Theorem recent_pattern_is_earliest_mode (cur : option string)
    (history : list EmotionRecord) :
  history <> [] ->
  exists label pre post,
    recent_pattern (_build_emotional_context cur (Some history)) = Some label /\
    recent_emotions_of history = pre ++ label :: post /\
    ~ In label pre /\
    (forall x, occurrences (recent_emotions_of history) x
               <= occurrences (recent_emotions_of history) label) /\
    (forall x, In x pre ->
               occurrences (recent_emotions_of history) x
               < occurrences (recent_emotions_of history) label).
Proof.
  intros Hne.
  destruct (recent_pattern_eq cur history Hne) as (top & rest & HC & Hrp).
  set (labels := recent_emotions_of history) in *.
  destruct (Counter_spec labels) as (Hnd & Hlk & Hkeys & Hord).
  destruct (max_from_spec snd top rest) as (c1 & c2 & Hdec & Hlt & Hle).
  set (m := max_from Nat.ltb snd top rest) in *.
  rewrite HC in Hnd, Hlk, Hkeys, Hord. rewrite Hdec in Hnd, Hlk, Hkeys, Hord.
  assert (Hcount : forall k n, In (k, n) (c1 ++ m :: c2) -> n = occurrences labels k).
  { intros k n Hin. rewrite <- Hlk. symmetry. now apply lookup_in. }
  assert (Hm : snd m = occurrences labels (fst m)).
  { apply Hcount. rewrite <- surjective_pairing. apply in_elt. }
  destruct (Hord (map fst c1) (fst m) (map fst c2)) as (pre & post & Hl & Hnin & Hpre).
  { now rewrite map_app. }
  exists (fst m), pre, post. repeat split; trivial.
  - intros x. destruct (in_dec string_dec x labels) as [Hx|Hx].
    + apply Hkeys, in_map_iff in Hx. destruct Hx as ([k n] & Hk & Hin).
      simpl in Hk. subst k. rewrite <- (Hcount x n Hin), <- Hm.
      apply in_app_iff in Hin. destruct Hin as [Hin|[Hin|Hin]].
      * specialize (Hlt _ Hin). simpl in Hlt. lia.
      * rewrite Hin. simpl. lia.
      * apply (Hle _ Hin).
    + unfold occurrences at 1. rewrite (proj1 (count_occ_not_In string_dec _ _) Hx). lia.
  - intros x Hx. apply Hpre, in_map_iff in Hx. destruct Hx as ([k n] & Hk & Hin).
    simpl in Hk. subst k.
    rewrite <- (Hcount x n), <- Hm; [|apply in_app_iff; now left].
    apply (Hlt _ Hin).
Qed.

Lemma recent_pattern_is_earliest_mode_witness :
  exists label pre post,
    recent_pattern (_build_emotional_context None (Some tie_window)) = Some label /\
    recent_emotions_of tie_window = pre ++ label :: post /\
    ~ In label pre /\
    (forall x, occurrences (recent_emotions_of tie_window) x
               <= occurrences (recent_emotions_of tie_window) label) /\
    (forall x, In x pre ->
               occurrences (recent_emotions_of tie_window) x
               < occurrences (recent_emotions_of tie_window) label).
Proof.
  apply (recent_pattern_is_earliest_mode None tie_window). discriminate.
Defined.

End FusionFacts.

(** ** Emotion aggregation *)

Module EmotionFacts.
Import Py EmotionDetector.
Local Open Scope list_scope.
Local Open Scope Q_scope.

(** *** Sums *)

Lemma fold_Qplus_acc (values : list Q) (a : Q) :
  fold_left Qplus values a == a + fold_left Qplus values 0.
Proof.
  revert a. induction values as [|v t IH]; intros a; simpl.
  - ring.
  - rewrite (IH (a + v)), (IH (0 + v)). ring.
Qed.

Lemma py_sum_cons (v : Q) (values : list Q) :
  py_sum (v :: values) == v + py_sum values.
Proof. unfold py_sum. simpl. rewrite fold_Qplus_acc. ring. Qed.

Lemma py_sum_nonneg (values : list Q) :
  Forall (fun v => 0 <= v) values -> 0 <= py_sum values.
Proof.
  induction 1 as [|v t Hv Ht IH].
  - apply Qle_refl.
  - rewrite py_sum_cons. rewrite <- (Qplus_0_l 0). now apply Qplus_le_compat.
Qed.

(** Non-negative numbers that sum to zero are all zero. *)
Lemma py_sum_zero (values : list Q) :
  Forall (fun v => 0 <= v) values -> py_sum values == 0 ->
  Forall (fun v => v == 0) values.
Proof.
  induction 1 as [|v t Hv Ht IH]; intros Hs; constructor.
  - rewrite py_sum_cons in Hs. pose proof (py_sum_nonneg t Ht) as Hp.
    apply Qle_antisym; [|exact Hv].
    rewrite <- Hs. rewrite <- (Qplus_0_r v) at 1.
    apply Qplus_le_compat; [apply Qle_refl | exact Hp].
  - apply IH. rewrite py_sum_cons in Hs. pose proof (py_sum_nonneg t Ht) as Hp.
    apply Qle_antisym; [|exact Hp].
    rewrite <- Hs. rewrite <- (Qplus_0_l (py_sum t)) at 1.
    apply Qplus_le_compat; [exact Hv | apply Qle_refl].
Qed.

Lemma py_sum_div (values : list Q) (total : Q) :
  ~ total == 0 ->
  py_sum (map (fun v => v / total) values) == py_sum values / total.
Proof.
  intros Ht. induction values as [|v t IH]; simpl map.
  - unfold py_sum. simpl. field. exact Ht.
  - rewrite !py_sum_cons, IH. field. exact Ht.
Qed.

(** *** The accumulation loop *)

Lemma add_to_keys (emotion : string) (value : Q) (aggregated : EmotionMap) :
  map fst (add_to emotion value aggregated) = map fst aggregated.
Proof.
  induction aggregated as [|[k v] t IH]; simpl; [reflexivity|].
  destruct (k =? emotion)%string; simpl; [reflexivity | now rewrite IH].
Qed.

Lemma add_face_keys (emotions aggregated : EmotionMap) :
  map fst (add_face aggregated emotions) = map fst aggregated.
Proof.
  unfold add_face. revert aggregated.
  induction emotions as [|kv t IH]; intros aggregated; simpl; [reflexivity|].
  rewrite IH. destruct (has_key (fst kv) aggregated); [apply add_to_keys | reflexivity].
Qed.

(** The aggregated dict always has the seven labels as keys, in order. *)
Lemma label_sums_keys (emotion_list : list EmotionMap) :
  map fst (label_sums emotion_list) = emotion_labels.
Proof.
  unfold label_sums.
  assert (H : forall start, map fst (fold_left add_face emotion_list start)
                            = map fst start).
  { induction emotion_list as [|f t IH]; intros start; simpl; [reflexivity|].
    now rewrite IH, add_face_keys. }
  rewrite H. reflexivity.
Qed.

Lemma add_to_nonneg (emotion : string) (value : Q) (aggregated : EmotionMap) :
  0 <= value ->
  Forall (fun v => 0 <= v) (map snd aggregated) ->
  Forall (fun v => 0 <= v) (map snd (add_to emotion value aggregated)).
Proof.
  intros Hv. induction aggregated as [|[k v] t IH]; simpl; intros H; [constructor|].
  inversion H as [|? ? Hk Ht]; subst.
  destruct (k =? emotion)%string; simpl; constructor; trivial.
  - rewrite <- (Qplus_0_l 0). now apply Qplus_le_compat.
  - now apply IH.
Qed.

Lemma add_face_nonneg (emotions aggregated : EmotionMap) :
  (forall kv, In kv emotions -> 0 <= snd kv) ->
  Forall (fun v => 0 <= v) (map snd aggregated) ->
  Forall (fun v => 0 <= v) (map snd (add_face aggregated emotions)).
Proof.
  unfold add_face. revert aggregated.
  induction emotions as [|kv t IH]; intros aggregated Hf Ha; simpl; [exact Ha|].
  apply IH; [intros kv' Hin; apply Hf; now right|].
  destruct (has_key (fst kv) aggregated); [|exact Ha].
  apply add_to_nonneg; [apply Hf; now left | exact Ha].
Qed.

Lemma label_sums_nonneg (emotion_list : list EmotionMap) :
  nonneg_scores emotion_list ->
  Forall (fun v => 0 <= v) (map snd (label_sums emotion_list)).
Proof.
  unfold label_sums, nonneg_scores.
  assert (H : forall start,
             (forall emotions, In emotions emotion_list ->
                               forall kv, In kv emotions -> 0 <= snd kv) ->
             Forall (fun v => 0 <= v) (map snd start) ->
             Forall (fun v => 0 <= v)
                    (map snd (fold_left add_face emotion_list start))).
  { induction emotion_list as [|f t IH]; intros start Hl Hs; simpl; [exact Hs|].
    apply IH; [intros e He; apply Hl; now right|].
    apply add_face_nonneg; [apply Hl; now left | exact Hs]. }
  intros Hl. apply H; [exact Hl|].
  simpl. repeat constructor; apply Qle_refl.
Qed.

(** *** What [_aggregate_emotions] returns *)

Lemma map_m_returns {A B : Type} (f : A -> outcome B) (g : A -> B) (l : list A) :
  (forall x, In x l -> f x = Returned (g x)) ->
  map_m f l = Returned (map g l).
Proof.
  induction l as [|x t IH]; intros H; simpl; [reflexivity|].
  rewrite (H x (or_introl eq_refl)), IH; [reflexivity|].
  intros y Hy. apply H. now right.
Qed.

Lemma Qltb_lt (a b : Q) : Qltb a b = true <-> a < b.
Proof.
  unfold Qltb. rewrite negb_true_iff. split.
  - intros H. apply Qnot_le_lt. intros Hle.
    apply Qle_bool_iff in Hle. congruence.
  - intros H. destruct (Qle_bool b a) eqn:E; [|reflexivity].
    apply Qle_bool_iff in E. exfalso. now apply (Qlt_not_le a b).
Qed.

(** With a positive total every sum is divided by it, and no division
    raises. *)
Lemma aggregate_positive (emotion_list : list EmotionMap) :
  0 < total_of emotion_list ->
  _aggregate_emotions emotion_list
  = Returned (map (fun kv => (fst kv, snd kv / total_of emotion_list))
                  (label_sums emotion_list)).
Proof.
  intros Hpos. unfold _aggregate_emotions. fold (total_of emotion_list).
  rewrite (proj2 (Qltb_lt 0 _) Hpos).
  apply map_m_returns. intros kv _. unfold true_div.
  destruct (Qeq_bool (total_of emotion_list) 0) eqn:E; [|reflexivity].
  apply Qeq_bool_iff in E. rewrite E in Hpos. now apply Qlt_irrefl in Hpos.
Qed.

(** Otherwise the sums are returned as they are. *)
Lemma aggregate_not_positive (emotion_list : list EmotionMap) :
  ~ 0 < total_of emotion_list ->
  _aggregate_emotions emotion_list = Returned (label_sums emotion_list).
Proof.
  intros Hn. unfold _aggregate_emotions. fold (total_of emotion_list).
  destruct (Qltb 0 (total_of emotion_list)) eqn:E; [|reflexivity].
  apply Qltb_lt in E. contradiction.
Qed.

(** [_aggregate_emotions] never raises, and its result has the seven
    labels as keys. *)
Lemma aggregate_returns (emotion_list : list EmotionMap) :
  exists v, _aggregate_emotions emotion_list = Returned v /\
            map fst v = emotion_labels.
Proof.
  destruct (Qlt_le_dec 0 (total_of emotion_list)) as [Hpos|Hle].
  - rewrite (aggregate_positive _ Hpos). eexists. split; [reflexivity|].
    rewrite map_map. simpl. apply label_sums_keys.
  - rewrite aggregate_not_positive; [|now apply Qle_not_lt].
    eexists. split; [reflexivity | apply label_sums_keys].
Qed.

Lemma get_all_zero (label : string) (aggregated : EmotionMap) :
  Forall (fun v => v == 0) (map snd aggregated) -> get label aggregated == 0.
Proof.
  induction aggregated as [|[k v] t IH]; simpl; intros H; [reflexivity|].
  inversion H; subst. destruct (k =? label)%string; [assumption | now apply IH].
Qed.

(** [detect_emotions] reports no error once the faces are scored. *)
Lemma detect_emotions_no_error (faces : nat) (all_emotions : list EmotionMap) :
  error (detect_emotions faces all_emotions) = None.
Proof.
  unfold detect_emotions. destruct (faces =? 0)%nat; [reflexivity|].
  destruct all_emotions as [|f t]; [reflexivity|].
  destruct (aggregate_returns (f :: t)) as (v & Hv & Hk). rewrite Hv. cbn [bind].
  destruct v as [|kv v]; [discriminate Hk | reflexivity].
Qed.

(** *** C5 *)

(** One face whose scores are all zero. *)
Definition zero_scores : list EmotionMap :=
  [[("happy"%string, 0); ("neutral"%string, 0)]].

(** C5, as stated, fails: for a face with all-zero scores the total is
    zero and the result gives neutral the weight 0, not 1. *)
Lemma zero_total_is_not_neutral :
  zero_scores <> [] /\
  total_of zero_scores == 0 /\
  exists v, _aggregate_emotions zero_scores = Returned v /\
            get "neutral" v == 0 /\ ~ get "neutral" v == 1.
Proof.
  split; [discriminate|]. split; [reflexivity|].
  eexists. split; [reflexivity|]. split; [reflexivity | discriminate].
Qed.

(** C5, amended. When the total over all labels is zero nothing is
    divided: the aggregation returns the per-label sums unchanged, and
    for non-negative scores every one of them, neutral included, is 0. *)
Theorem zero_total_returns_sums (emotion_list : list EmotionMap) :
  emotion_list <> [] ->
  total_of emotion_list == 0 ->
  _aggregate_emotions emotion_list = Returned (label_sums emotion_list) /\
  (nonneg_scores emotion_list ->
   forall label, get label (label_sums emotion_list) == 0).
Proof.
  intros _ Hz. split.
  - apply aggregate_not_positive. rewrite Hz. apply Qlt_irrefl.
  - intros Hnn label. apply get_all_zero, py_sum_zero.
    + now apply label_sums_nonneg.
    + exact Hz.
Qed.

Lemma zero_total_returns_sums_witness :
  _aggregate_emotions zero_scores = Returned (label_sums zero_scores) /\
  (nonneg_scores zero_scores ->
   forall label, get label (label_sums zero_scores) == 0).
Proof.
  apply (zero_total_returns_sums zero_scores); [discriminate | reflexivity].
Defined.

(** *** C6 *)

Lemma zero_scores_nonneg : nonneg_scores zero_scores.
Proof.
  intros emotions [<-|[]] kv [<-|[<-|[]]]; apply Qle_refl.
Qed.

(** C6, as stated, fails: the all-zero face is a valid input and the
    weights of its result sum to 0. *)
Lemma zero_scores_sum_to_zero :
  zero_scores <> [] /\
  nonneg_scores zero_scores /\
  exists v, _aggregate_emotions zero_scores = Returned v /\
            py_sum (map snd v) == 0 /\
            ~ Qabs (py_sum (map snd v) - 1) <= 1 # 1000000.
Proof.
  split; [discriminate|]. split; [exact zero_scores_nonneg|].
  eexists. split; [reflexivity|]. split; [reflexivity|].
  vm_compute. intros H. now apply H.
Qed.

(** Two faces. *)
Definition two_faces : list EmotionMap :=
  [[("happy"%string, 1 # 2); ("sad"%string, 1 # 4)]; [("happy"%string, 1 # 2)]].

(** *** C7 *)

(** One face with a negative score. *)
Definition negative_scores : list EmotionMap :=
  [[("happy"%string, -1 # 1); ("sad"%string, 3 # 1)]].

Lemma negative_scores_negative : has_negative negative_scores.
Proof.
  exists [("happy"%string, -1 # 1); ("sad"%string, 3 # 1)], ("happy"%string, -1 # 1).
  simpl. repeat split; tauto.
Qed.

(** C7, as stated, fails: a negative weight raises nothing; the scores
    are summed and divided by the total like any others, and the result
    carries a negative weight. *)
Lemma negative_weight_is_normalized :
  has_negative negative_scores /\
  (forall e, _aggregate_emotions negative_scores <> Raised e) /\
  exists v, _aggregate_emotions negative_scores = Returned v /\
            get "happy" v == -1 # 2 /\ get "sad" v == 3 # 2 /\
            error (detect_emotions 1 negative_scores) = None.
Proof.
  split; [exact negative_scores_negative|]. split; [intros e; discriminate|].
  eexists. split; [reflexivity|]. repeat split.
Qed.

(** C7, amended. A sequence with a negative weight is aggregated like any
    other: no error is raised, the result has the seven labels, it holds
    the sums divided by their total when the total is positive and the
    sums themselves otherwise, and [detect_emotions] reports no error. *)
Theorem negative_weights_are_aggregated (faces : nat)
    (emotion_list : list EmotionMap) :
  has_negative emotion_list ->
  (exists v,
     _aggregate_emotions emotion_list = Returned v /\
     map fst v = emotion_labels /\
     (0 < total_of emotion_list ->
      v = map (fun kv => (fst kv, snd kv / total_of emotion_list))
              (label_sums emotion_list)) /\
     (~ 0 < total_of emotion_list -> v = label_sums emotion_list)) /\
  error (detect_emotions faces emotion_list) = None.
Proof.
  intros _. split; [|apply detect_emotions_no_error].
  destruct (aggregate_returns emotion_list) as (v & Hv & Hk).
  exists v. split; [exact Hv|]. split; [exact Hk|]. split.
  - intros Hpos. rewrite (aggregate_positive _ Hpos) in Hv. now inversion Hv.
  - intros Hn. rewrite (aggregate_not_positive _ Hn) in Hv. now inversion Hv.
Qed.

Lemma negative_weights_are_aggregated_witness :
  (exists v,
     _aggregate_emotions negative_scores = Returned v /\
     map fst v = emotion_labels /\
     (0 < total_of negative_scores ->
      v = map (fun kv => (fst kv, snd kv / total_of negative_scores))
              (label_sums negative_scores)) /\
     (~ 0 < total_of negative_scores -> v = label_sums negative_scores)) /\
  error (detect_emotions 1 negative_scores) = None.
Proof.
  apply (negative_weights_are_aggregated 1 negative_scores).
  exists [("happy"%string, -1 # 1); ("sad"%string, 3 # 1)], ("happy"%string, -1 # 1).
  simpl. repeat split; tauto.
Defined.

End EmotionFacts.

(** ** backend/emotion_detector.py in rounded arithmetic *)

Module RoundedDetector.
Import Py EmotionDetector.
Local Open Scope list_scope.
Local Open Scope Q_scope.

(** The float operations of the aggregation, on the values of the finite
    floats: [x + y], [x / y] and [sum(values)] as the machine computes
    them. *)
Record Arithmetic : Type :=
  { fadd : Q -> Q -> Q;
    fdiv : Q -> Q -> Q;
    fsum : list Q -> Q }.

Section Aggregate.

Variable ar : Arithmetic.

(** [aggregated[emotion] += value] *)
Fixpoint add_to (emotion : string) (value : Q) (aggregated : EmotionMap) : EmotionMap :=
  match aggregated with
  | [] => []
  | (k, v) :: t =>
      if (k =? emotion)%string then (k, fadd ar v value) :: t
      else (k, v) :: add_to emotion value t
  end.

(** The inner loop: one face's scores added into [aggregated]. *)
Definition add_face (aggregated : EmotionMap) (emotions : EmotionMap) : EmotionMap :=
  fold_left (fun agg kv => if has_key (fst kv) agg
                           then add_to (fst kv) (snd kv) agg else agg)
            emotions aggregated.

(** [aggregated] after the outer loop. *)
Definition label_sums (emotion_list : list EmotionMap) : EmotionMap :=
  fold_left add_face emotion_list (map (fun emotion => (emotion, 0)) emotion_labels).

(** [a / b] *)
Definition true_div (a b : Q) : outcome Q :=
  if Qeq_bool b 0 then Raised ZeroDivisionError else Returned (fdiv ar a b).

(** [total] of [_aggregate_emotions]. *)
Definition total_of (emotion_list : list EmotionMap) : Q :=
  fsum ar (map snd (label_sums emotion_list)).

Definition _aggregate_emotions (emotion_list : list EmotionMap) : outcome EmotionMap :=
  let aggregated := label_sums emotion_list in
  let total := fsum ar (map snd aggregated) in
  if Qltb 0 total then
    map_m (fun kv => q <- true_div (snd kv) total ;; Returned (fst kv, q)) aggregated
  else Returned aggregated.

End Aggregate.

(** Arithmetic without rounding: the operations of [EmotionDetector]. *)
Definition exact : Arithmetic :=
  {| fadd := Qplus; fdiv := Qdiv; fsum := py_sum |}.

(** What floating-point arithmetic guarantees on finite non-negative
    numbers, with unit roundoff [u], underflow threshold [eta] and
    overflow threshold [huge]: sums of non-negative numbers are
    non-negative; the sum of at most seven non-negative numbers that did
    not overflow has a relative error of at most [7 * u]; a quotient of at
    most 2 has a relative error of at most [u], or an absolute error of at
    most [eta] when it underflows, and is not negative. For binary64,
    [u] is [2^-53] and [eta] is [2^-1075]. *)
Record rounded (ar : Arithmetic) (u eta huge : Q) : Prop :=
  { fadd_nonneg : forall x y, 0 <= x -> 0 <= y -> 0 <= fadd ar x y;
    fsum_accurate :
      forall values, Forall (fun v => 0 <= v) values ->
                     (List.length values <= 7)%nat ->
                     fsum ar values <= huge ->
                     (1 - 7 * u) * py_sum values <= fsum ar values /\
                     fsum ar values <= (1 + 7 * u) * py_sum values;
    fdiv_accurate :
      forall x y, 0 <= x -> 0 < y -> x <= 2 * y ->
                  (1 - u) * (x / y) - eta <= fdiv ar x y /\
                  fdiv ar x y <= (1 + u) * (x / y) + eta;
    fdiv_nonneg : forall x y, 0 <= x -> 0 < y -> 0 <= fdiv ar x y }.

End RoundedDetector.

Module RoundedFacts.
Import Py EmotionDetector EmotionFacts RoundedDetector.
Local Open Scope list_scope.
Local Open Scope Q_scope.

(** Without rounding the aggregation is the one of [EmotionDetector]. *)
Lemma exact_aggregate (emotion_list : list EmotionMap) :
  RoundedDetector._aggregate_emotions exact emotion_list
  = EmotionDetector._aggregate_emotions emotion_list.
Proof. reflexivity. Qed.

Lemma exact_is_rounded (huge : Q) : rounded exact 0 0 huge.
Proof.
  split; cbn [fadd fdiv fsum exact].
  - intros x y Hx Hy. rewrite <- (Qplus_0_l 0). now apply Qplus_le_compat.
  - intros values _ _ _. split; ring_simplify; apply Qle_refl.
  - intros x y _ _ _. split; ring_simplify; apply Qle_refl.
  - intros x y Hx Hy. apply Qle_shift_div_l; [exact Hy|]. now rewrite Qmult_0_l.
Qed.

Section Facts.

Variable ar : Arithmetic.
Variables u eta huge : Q.
Hypothesis Har : rounded ar u eta huge.

Lemma add_to_keys_r (emotion : string) (value : Q) (aggregated : EmotionMap) :
  map fst (add_to ar emotion value aggregated) = map fst aggregated.
Proof.
  induction aggregated as [|[k v] t IH]; simpl; [reflexivity|].
  destruct (k =? emotion)%string; simpl; [reflexivity | now rewrite IH].
Qed.

Lemma add_face_keys_r (emotions aggregated : EmotionMap) :
  map fst (add_face ar aggregated emotions) = map fst aggregated.
Proof.
  unfold add_face. revert aggregated.
  induction emotions as [|kv t IH]; intros aggregated; simpl; [reflexivity|].
  rewrite IH. destruct (has_key (fst kv) aggregated); [apply add_to_keys_r | reflexivity].
Qed.

Lemma label_sums_keys_r (emotion_list : list EmotionMap) :
  map fst (label_sums ar emotion_list) = emotion_labels.
Proof.
  unfold label_sums.
  assert (H : forall start, map fst (fold_left (add_face ar) emotion_list start)
                            = map fst start).
  { induction emotion_list as [|f t IH]; intros start; simpl; [reflexivity|].
    now rewrite IH, add_face_keys_r. }
  rewrite H. reflexivity.
Qed.

Lemma add_to_nonneg_r (emotion : string) (value : Q) (aggregated : EmotionMap) :
  0 <= value ->
  Forall (fun v => 0 <= v) (map snd aggregated) ->
  Forall (fun v => 0 <= v) (map snd (add_to ar emotion value aggregated)).
Proof.
  intros Hv. induction aggregated as [|[k v] t IH]; simpl; intros H; [constructor|].
  inversion H as [|? ? Hk Ht]; subst.
  destruct (k =? emotion)%string; simpl; constructor; trivial.
  - now apply (fadd_nonneg _ _ _ _ Har).
  - now apply IH.
Qed.

Lemma add_face_nonneg_r (emotions aggregated : EmotionMap) :
  (forall kv, In kv emotions -> 0 <= snd kv) ->
  Forall (fun v => 0 <= v) (map snd aggregated) ->
  Forall (fun v => 0 <= v) (map snd (add_face ar aggregated emotions)).
Proof.
  unfold add_face. revert aggregated.
  induction emotions as [|kv t IH]; intros aggregated Hf Ha; simpl; [exact Ha|].
  apply IH; [intros kv' Hin; apply Hf; now right|].
  destruct (has_key (fst kv) aggregated); [|exact Ha].
  apply add_to_nonneg_r; [apply Hf; now left | exact Ha].
Qed.

Lemma label_sums_nonneg_r (emotion_list : list EmotionMap) :
  nonneg_scores emotion_list ->
  Forall (fun v => 0 <= v) (map snd (label_sums ar emotion_list)).
Proof.
  unfold label_sums, nonneg_scores.
  assert (H : forall start,
             (forall emotions, In emotions emotion_list ->
                               forall kv, In kv emotions -> 0 <= snd kv) ->
             Forall (fun v => 0 <= v) (map snd start) ->
             Forall (fun v => 0 <= v)
                    (map snd (fold_left (add_face ar) emotion_list start))).
  { induction emotion_list as [|f t IH]; intros start Hl Hs; simpl; [exact Hs|].
    apply IH; [intros e He; apply Hl; now right|].
    apply add_face_nonneg_r; [apply Hl; now left | exact Hs]. }
  intros Hl. apply H; [exact Hl|].
  simpl. repeat constructor; apply Qle_refl.
Qed.

(** With a positive total every sum is divided by it. *)
Lemma aggregate_positive_r (emotion_list : list EmotionMap) :
  0 < total_of ar emotion_list ->
  RoundedDetector._aggregate_emotions ar emotion_list
  = Returned (map (fun kv => (fst kv, fdiv ar (snd kv) (total_of ar emotion_list)))
                  (label_sums ar emotion_list)).
Proof.
  intros Hpos. unfold RoundedDetector._aggregate_emotions.
  fold (total_of ar emotion_list).
  rewrite (proj2 (Qltb_lt 0 _) Hpos).
  apply map_m_returns. intros kv _. unfold true_div.
  destruct (Qeq_bool (total_of ar emotion_list) 0) eqn:E; [|reflexivity].
  apply Qeq_bool_iff in E. rewrite E in Hpos. now apply Qlt_irrefl in Hpos.
Qed.

Lemma member_le_sum (values : list Q) (v : Q) :
  Forall (fun w => 0 <= w) values -> In v values -> v <= py_sum values.
Proof.
  induction 1 as [|w t Hw Ht IH]; intros Hin; [contradiction|].
  rewrite py_sum_cons. pose proof (py_sum_nonneg t Ht) as Hp.
  destruct Hin as [->|Hin]; [lra|]. specialize (IH Hin). lra.
Qed.

(** The exact sum of the computed quotients against the quotient of the
    exact sum. *)
Lemma quotients_sum (total : Q) (values : list Q) :
  0 < total ->
  Forall (fun v => 0 <= v /\ v <= 2 * total) values ->
  (1 - u) * (py_sum values / total) - inject_Z (Z.of_nat (List.length values)) * eta
  <= py_sum (map (fun v => fdiv ar v total) values) /\
  py_sum (map (fun v => fdiv ar v total) values)
  <= (1 + u) * (py_sum values / total) + inject_Z (Z.of_nat (List.length values)) * eta.
Proof.
  intros Ht. induction 1 as [|v t [Hv0 Hv2] Hrest IH].
  - unfold py_sum. cbn [map fold_left List.length Z.of_nat inject_Z].
    split; unfold Qdiv; ring_simplify; apply Qle_refl.
  - cbn [map List.length]. rewrite !py_sum_cons.
    rewrite Nat2Z.inj_succ. unfold Z.succ. rewrite inject_Z_plus.
    destruct (fdiv_accurate _ _ _ _ Har v total Hv0 Ht Hv2) as [Hlo Hhi].
    destruct IH as [IHlo IHhi].
    assert (Hsplit : (v + py_sum t) / total == v / total + py_sum t / total)
      by (field; lra).
    rewrite Hsplit.
    change (inject_Z 1) with 1.
    split; lra.
Qed.

End Facts.

(** C6, amended. In every arithmetic that rounds within the bounds of
    [rounded], with a unit roundoff and an underflow threshold of at most
    1e-8 (binary64 has 2^-53 and 2^-1075), for valid scores whose computed
    total is positive and has not overflowed, the aggregation returns
    non-negative weights over the seven labels whose sum is within 1e-6
    of 1. *)
Theorem normalized_weights_sum_to_one (ar : Arithmetic) (u eta huge : Q)
    (emotion_list : list EmotionMap) :
  rounded ar u eta huge ->
  0 <= u -> u <= 1 # 100000000 ->
  0 <= eta -> eta <= 1 # 100000000 ->
  emotion_list <> [] ->
  nonneg_scores emotion_list ->
  0 < total_of ar emotion_list ->
  total_of ar emotion_list <= huge ->
  exists v,
    RoundedDetector._aggregate_emotions ar emotion_list = Returned v /\
    map fst v = emotion_labels /\
    Forall (fun w => 0 <= w) (map snd v) /\
    Qabs (py_sum (map snd v) - 1) <= 1 # 1000000.
Proof.
  intros Har Hu0 Hu1 He0 He1 _ Hnn Hpos Hhuge.
  rewrite (aggregate_positive_r ar emotion_list Hpos).
  pose proof (label_sums_keys_r ar emotion_list) as Hkeys.
  pose proof (label_sums_nonneg_r ar u eta huge Har emotion_list Hnn) as Hvals.
  set (sums := label_sums ar emotion_list) in *.
  set (T := total_of ar emotion_list) in *.
  set (vals := map snd sums) in *.
  assert (HT : T = fsum ar vals) by reflexivity.
  assert (Hlen : List.length vals = 7%nat).
  { unfold vals. rewrite length_map, <- (length_map fst), Hkeys. reflexivity. }
  destruct (fsum_accurate _ _ _ _ Har vals Hvals) as [Hlo Hhi];
    [lia | now rewrite <- HT |].
  rewrite <- HT in Hlo, Hhi.
  pose proof (py_sum_nonneg vals Hvals) as HS0.
  set (S := py_sum vals) in *.
  assert (HS2 : S <= 2 * T) by nra.
  eexists. split; [reflexivity|]. split; [|split].
  - rewrite map_map. cbn [fst]. exact Hkeys.
  - rewrite map_map. cbn [snd]. fold vals.
    rewrite <- (map_map snd (fun v => fdiv ar v T)). fold vals.
    apply Forall_map. eapply Forall_impl; [|exact Hvals].
    intros v Hv. cbv beta. now apply (fdiv_nonneg _ _ _ _ Har).
  - rewrite map_map. cbn [snd].
    rewrite <- (map_map snd (fun v => fdiv ar v T)). fold vals.
    assert (Hbound : Forall (fun v => 0 <= v /\ v <= 2 * T) vals).
    { rewrite Forall_forall. intros v Hin. split.
      - rewrite Forall_forall in Hvals. now apply Hvals.
      - pose proof (member_le_sum vals v Hvals Hin). fold S in H. lra. }
    destruct (quotients_sum ar u eta huge Har T vals Hpos Hbound) as [Qlo Qhi].
    rewrite Hlen in Qlo, Qhi. fold S in Qlo, Qhi.
    change (inject_Z (Z.of_nat 7)) with 7 in Qlo, Qhi.
    assert (Hinv : 0 < / T) by now apply Qinv_lt_0_compat.
    assert (HTT : T * / T == 1) by (apply Qmult_inv_r; lra).
    set (a := S / T) in *.
    assert (Ha : a == S * / T) by reflexivity.
    assert (Ha0 : 0 <= a) by (rewrite Ha; nra).
    assert (Ha1 : (1 - 7 * u) * a <= 1).
    { rewrite Ha. rewrite <- HTT. nra. }
    assert (Ha2 : 1 <= (1 + 7 * u) * a).
    { rewrite Ha. rewrite <- HTT. nra. }
    assert (Ha3 : a <= 2) by nra.
    assert (Hua : u * a <= 2 * u) by nra.
    assert (Hua0 : 0 <= u * a) by nra.
    apply Qabs_Qle_condition. split; lra.
Qed.

(** An arithmetic that rounds: every quotient comes out too large and
    every sum too small, by one part in 10^9. *)
Definition biased : Arithmetic :=
  {| fadd := Qplus;
     fdiv := fun x y => (x / y) * (1 + (1 # 1000000000));
     fsum := fun values => py_sum values * (1 - (1 # 1000000000)) |}.

Lemma biased_is_rounded (huge : Q) : rounded biased (1 # 1000000000) 0 huge.
Proof.
  split; cbn [fadd fdiv fsum biased].
  - intros x y Hx Hy. lra.
  - intros values Hv _ _. pose proof (py_sum_nonneg values Hv). split; lra.
  - intros x y Hx Hy _.
    assert (0 <= x / y) by (apply Qle_shift_div_l; [exact Hy | lra]).
    split; lra.
  - intros x y Hx Hy.
    assert (0 <= x / y) by (apply Qle_shift_div_l; [exact Hy | lra]).
    nra.
Qed.

(** In that arithmetic the weights of the two faces do not sum to 1. *)
Example biased_sum_is_not_one :
  exists v,
    RoundedDetector._aggregate_emotions biased two_faces = Returned v /\
    ~ py_sum (map snd v) == 1.
Proof. eexists. split; [reflexivity|]. vm_compute. discriminate. Qed.

Lemma normalized_weights_sum_to_one_witness :
  exists v,
    RoundedDetector._aggregate_emotions biased two_faces = Returned v /\
    map fst v = emotion_labels /\
    Forall (fun w => 0 <= w) (map snd v) /\
    Qabs (py_sum (map snd v) - 1) <= 1 # 1000000.
Proof.
  apply (normalized_weights_sum_to_one biased (1 # 1000000000) 0 2 two_faces).
  - apply biased_is_rounded.
  - discriminate.
  - discriminate.
  - discriminate.
  - discriminate.
  - discriminate.
  - intros emotions [<-|[<-|[]]] kv; simpl;
      intros H; decompose [or] H; try contradiction; subst; simpl; discriminate.
  - reflexivity.
  - vm_compute. discriminate.
Defined.

End RoundedFacts.

(** * Further properties of the code *)

(** ** The classifier and the standalone detector *)

Module ClassifierExtras.
Import Py PyStr PyStrFacts Chatbot ClassifierFacts.

(** A zero count of a category is the absence of all its keywords. *)
Lemma hits_zero_iff (c : Sentiment) (message : string) :
  hits c message = 0 <->
  forall w, In w (keywords c) -> ~ occurs_ci w message.
Proof.
  unfold hits. rewrite count_in_zero. split.
  - intros Hany w Hin Hoc.
    assert (any_in (keywords c) (lower message) = true); [|congruence].
    apply any_in_spec. exists w. split; [exact Hin|].
    apply contains_lower_iff in Hoc. now rewrite (keywords_lowercase c w Hin) in Hoc.
  - intros Hno. destruct (any_in (keywords c) (lower message)) eqn:E; [|reflexivity].
    apply any_in_spec in E. destruct E as (w & Hin & Hw).
    exfalso. apply (Hno w Hin). apply contains_lower_iff.
    now rewrite (keywords_lowercase c w Hin).
Qed.

Lemma analyze_neutral_counts (message : string) :
  _analyze_sentiment message = Returned Neutral ->
  hits Crisis message = 0 /\ hits Stress message = 0 /\ hits Sadness message = 0 /\
  hits Anger message = 0 /\ hits Fear message = 0.
Proof.
  intros H. rewrite analyze_unfold in H.
  destruct (Nat.ltb_spec 0 (hits Crisis message)) as [|Hc]; [discriminate H|].
  cbn [max_from snd fst] in H.
  repeat match type of H with
         | context [hits ?k message <? ?y] =>
             destruct (Nat.ltb_spec (hits k message) y)
         end;
    try (exfalso; lia); cbn [snd fst] in H;
    match type of H with
    | context [0 <? ?y] => destruct (Nat.ltb_spec 0 y)
    end; try discriminate H; lia.
Qed.

(** X1. The classifier answers neutral exactly when the message holds no
    keyword of any vocabulary, crisis phrases included. *)
Theorem neutral_iff_no_keyword (message : string) :
  _analyze_sentiment message = Returned Neutral <->
  forall c w, In w (keywords c) -> ~ occurs_ci w message.
Proof.
  split.
  - intros H c. apply hits_zero_iff.
    destruct (analyze_neutral_counts message H) as (H0 & H1 & H2 & H3 & H4).
    destruct c; try assumption. reflexivity.
  - intros Hno.
    assert (Hz : forall c, hits c message = 0)
      by (intros c; apply hits_zero_iff; apply Hno).
    rewrite analyze_unfold, !Hz. reflexivity.
Qed.

(** X2. A crisis classification survives any text put around the message:
    phrases are matched as substrings, also inside longer words. *)
Theorem crisis_survives_context (before message after : string) :
  _analyze_sentiment message = Returned Crisis ->
  _analyze_sentiment (before ++ message ++ after) = Returned Crisis /\
  detect_crisis (before ++ message ++ after) = true.
Proof.
  intros H. apply analyze_crisis_iff, crisis_hits_pos in H.
  destruct H as (w & Hin & a & s & b & -> & Hs).
  assert (Hoc : occurs_ci w (before ++ (a ++ s ++ b) ++ after)).
  { exists (before ++ a)%string, s, (b ++ after)%string. split; [|exact Hs].
    clear. induction before as [|c t IH]; simpl.
    - induction a as [|c a IHa]; simpl; [|now rewrite IHa].
      induction s as [|c s IHs]; simpl; [reflexivity | now rewrite IHs].
    - now rewrite IH. }
  split.
  - apply analyze_crisis_iff, crisis_hits_pos. now exists w.
  - unfold detect_crisis. apply any_in_spec. exists w. split.
    + cbn [In crisis_keywords crisis_indicators] in *.
      decompose [or] Hin; try contradiction; subst; tauto.
    + apply contains_lower_iff in Hoc.
      now rewrite (keywords_lowercase Crisis w Hin) in Hoc.
Qed.

Lemma crisis_survives_context_witness :
  _analyze_sentiment ("cost-" ++ "cutting" ++ " measures") = Returned Crisis /\
  detect_crisis ("cost-" ++ "cutting" ++ " measures") = true.
Proof.
  apply (crisis_survives_context "cost-" "cutting" " measures"). reflexivity.
Defined.

(** The fear keywords that are not stress keywords as well. *)
Definition fear_only_keywords : list string :=
  ["afraid"; "scared"; "fear"; "terrified"; "dread"; "apprehensive";
   "frightened"; "intimidated"].

Lemma count_in_cons (w : string) (ws : list string) (s : string) :
  count_in (w :: ws) s = (if contains w s then 1 else 0) + count_in ws s.
Proof. unfold count_in. simpl. now destruct (contains w s). Qed.

Lemma analyze_fear_gt (message : string) :
  _analyze_sentiment message = Returned Fear ->
  hits Stress message < hits Fear message.
Proof.
  intros H. rewrite analyze_unfold in H.
  destruct (Nat.ltb_spec 0 (hits Crisis message)) as [|Hc]; [discriminate H|].
  cbn [max_from snd fst] in H.
  repeat match type of H with
         | context [hits ?k message <? ?y] =>
             destruct (Nat.ltb_spec (hits k message) y)
         end;
    try (exfalso; lia); cbn [snd fst] in H;
    match type of H with
    | context [0 <? ?y] => destruct (Nat.ltb_spec 0 y)
    end; try discriminate H; lia.
Qed.

(** X3. [worried], [nervous], [anxious] and [panic] count for stress and for
    fear alike, and stress wins a tie: a message is classified as fear only
    if one of the other fear keywords occurs in it. *)
Theorem fear_needs_a_fear_only_keyword (message : string) :
  _analyze_sentiment message = Returned Fear ->
  exists w, In w fear_only_keywords /\ occurs_ci w message.
Proof.
  intros H. apply analyze_fear_gt in H.
  assert (Hpos : 0 < count_in fear_only_keywords (lower message)).
  { revert H. unfold hits, keywords, stress_keywords, fear_keywords, fear_only_keywords.
    rewrite !count_in_cons. unfold count_in. cbn [filter List.length].
    repeat match goal with
           | |- context [if contains ?w ?s then 1 else 0] =>
               generalize (if contains w s then 1 else 0); intro
           end.
    lia. }
  apply count_in_pos, any_in_spec in Hpos. destruct Hpos as (w & Hin & Hw).
  exists w. split; [exact Hin|]. apply contains_lower_iff.
  assert (Hl : lower w = w).
  { cbn [In fear_only_keywords] in Hin.
    decompose [or] Hin; try contradiction; subst; reflexivity. }
  now rewrite Hl.
Qed.

Lemma fear_needs_a_fear_only_keyword_witness :
  exists w, In w fear_only_keywords /\ occurs_ci w "I am scared of the dark".
Proof.
  apply (fear_needs_a_fear_only_keyword "I am scared of the dark"). reflexivity.
Defined.

End ClassifierExtras.

(** ** Blank characters: [strip] and [split] *)

Module BlankFacts.
Import PyStr PyStrFacts.

(** Lowering a character does not change whether it is blank. *)
Lemma is_space_lower_char (c : ascii) : is_space (lower_char c) = is_space c.
Proof. destruct c as [[] [] [] [] [] [] [] []]; reflexivity. Qed.

(** The message consists of blank characters only. *)
Fixpoint blank (s : string) : bool :=
  match s with
  | EmptyString => true
  | String c t => is_space c && blank t
  end.

Lemma lstrip_blank (s : string) : blank s = true -> lstrip s = EmptyString.
Proof.
  induction s as [|c t IH]; simpl; [reflexivity|].
  intros H. apply andb_true_iff in H. destruct H as [Hc Ht].
  rewrite Hc. now apply IH.
Qed.

(** Otherwise [lstrip] stops at the first character that is not blank. *)
Lemma lstrip_not_blank (s : string) :
  blank s = false ->
  exists c t, lstrip s = String c t /\ is_space c = false.
Proof.
  induction s as [|c t IH]; simpl; [discriminate|].
  destruct (is_space c) eqn:Hc; simpl.
  - exact IH.
  - intros _. now exists c, t.
Qed.

Lemma rstrip_keeps_head (c : ascii) (t : string) :
  is_space c = false -> rstrip (String c t) = String c (rstrip t).
Proof.
  intros Hc. simpl. destruct (rstrip t); [now rewrite Hc | reflexivity].
Qed.

Lemma rstrip_idempotent (s : string) : rstrip (rstrip s) = rstrip s.
Proof.
  induction s as [|c t IH]; [reflexivity|].
  cbn [rstrip]. destruct (rstrip t) as [|d r] eqn:E.
  - destruct (is_space c) eqn:Hc; [reflexivity|].
    cbn [rstrip]. now rewrite Hc.
  - cbn [rstrip]. cbn [rstrip] in IH. destruct (rstrip r) as [|e r'] eqn:Er.
    + destruct (is_space d) eqn:Hd; [discriminate IH|].
      now inversion IH.
    + now inversion IH.
Qed.

(** [strip] returns the empty string exactly on blank input. *)
Lemma strip_empty_iff (s : string) : strip s = EmptyString <-> blank s = true.
Proof.
  unfold strip. destruct (blank s) eqn:E.
  - rewrite (lstrip_blank s E). split; reflexivity.
  - destruct (lstrip_not_blank s E) as (c & t & -> & Hc).
    rewrite (rstrip_keeps_head c t Hc). split; discriminate.
Qed.

(** Stripping twice is stripping once: the result has no blank at either
    end. *)
Lemma strip_idempotent (s : string) : strip (strip s) = strip s.
Proof.
  unfold strip. destruct (blank s) eqn:E.
  - now rewrite (lstrip_blank s E).
  - destruct (lstrip_not_blank s E) as (c & t & -> & Hc).
    rewrite (rstrip_keeps_head c t Hc). cbn [lstrip]. rewrite Hc.
    rewrite (rstrip_keeps_head c _ Hc). now rewrite rstrip_idempotent.
Qed.

Lemma flush_length (cur : string) (words : list string) :
  List.length (flush cur words)
  = (match cur with EmptyString => 0 | _ => 1 end) + List.length words.
Proof. destruct cur; reflexivity. Qed.

(** The number of words depends on where the blanks are, not on the
    letters' case. *)
Lemma split_from_length_lower (s1 : string) :
  forall s2 cur1 cur2,
    lower s1 = lower s2 ->
    (cur1 = EmptyString <-> cur2 = EmptyString) ->
    List.length (split_from cur1 s1) = List.length (split_from cur2 s2).
Proof.
  induction s1 as [|c1 t1 IH]; intros s2 cur1 cur2 Hl Hcur;
    destruct s2 as [|c2 t2]; try discriminate Hl.
  - simpl. rewrite !flush_length.
    destruct cur1, cur2; try reflexivity; exfalso;
      [assert (String a cur2 = EmptyString) by now apply Hcur
      |assert (String a cur1 = EmptyString) by now apply Hcur]; discriminate.
  - simpl in Hl. inversion Hl as [[Hc Ht]].
    assert (Hsp : is_space c1 = is_space c2)
      by now rewrite <- (is_space_lower_char c1), Hc, is_space_lower_char.
    cbn [split_from]. rewrite <- Hsp. destruct (is_space c1).
    + rewrite !flush_length. rewrite (IH t2 EmptyString EmptyString Ht); [|tauto].
      destruct cur1, cur2; try reflexivity; exfalso;
        [assert (String a cur2 = EmptyString) by now apply Hcur
        |assert (String a cur1 = EmptyString) by now apply Hcur]; discriminate.
    + apply IH; [exact Ht|]. split; discriminate.
Qed.

Lemma split_length_lower (s1 s2 : string) :
  lower s1 = lower s2 -> List.length (split s1) = List.length (split s2).
Proof.
  intros H. unfold split. apply split_from_length_lower; [exact H | tauto].
Qed.

End BlankFacts.

(** ** Replies *)

Module ArbitrationExtras.
Import Py PyStr PyStrFacts BlankFacts Chatbot ClassifierFacts ArbitrationFacts.

Definition greeting_words : list string := ["hello"; "hi"; "hey"; "start"; "begin"].

Lemma sentiment_eqb_neq (a b : Sentiment) : a <> b -> sentiment_eqb a b = false.
Proof.
  intros H. destruct (sentiment_eqb a b) eqn:E; [|reflexivity].
  apply sentiment_eqb_eq in E. contradiction.
Qed.

(** The tree reads the message through [lower] and through the number of
    its words only. *)
Lemma rule_based_lower (seed : nat) (m1 m2 : string) (s : Sentiment)
    (ctx : EmotionalContext) :
  lower m1 = lower m2 ->
  _generate_rule_based_response seed m1 s ctx
  = _generate_rule_based_response seed m2 s ctx.
Proof.
  intros H. unfold _generate_rule_based_response.
  now rewrite H, (split_length_lower m1 m2 H).
Qed.

(** The tree reads the context through its [current] field only. *)
Lemma rule_based_current_only (seed : nat) (message : string) (s : Sentiment)
    (ctx1 ctx2 : EmotionalContext) :
  current ctx1 = current ctx2 ->
  _generate_rule_based_response seed message s ctx1
  = _generate_rule_based_response seed message s ctx2.
Proof.
  intros H. unfold _generate_rule_based_response, _select_response. now rewrite H.
Qed.

Lemma build_context_current (cur : option string)
    (eh : option (list EmotionRecord)) :
  current (_build_emotional_context cur eh) = if truthy cur then cur else None.
Proof.
  unfold _build_emotional_context.
  destruct eh as [[|e h]|]; try reflexivity.
  destruct (recent_emotions_of (e :: h)); [reflexivity|].
  destruct (most_common_1 _); reflexivity.
Qed.

(** X4. Without a generator the reply does not depend on the letter case of
    the message, and neither do the classifier and the crisis detector. *)
Theorem reply_ignores_letter_case (self : TherapeuticChatbot) (seed : nat)
    (m1 m2 : string) (cur : option string) (eh : option (list EmotionRecord))
    (ch : option (list HistoryMessage)) :
  lower m1 = lower m2 ->
  openai_client self = None ->
  _analyze_sentiment m1 = _analyze_sentiment m2 /\
  detect_crisis m1 = detect_crisis m2 /\
  generate_response self seed m1 cur eh ch = generate_response self seed m2 cur eh ch.
Proof.
  intros H Hn.
  assert (Ha : _analyze_sentiment m1 = _analyze_sentiment m2)
    by (unfold _analyze_sentiment; now rewrite H).
  split; [exact Ha|]. split; [unfold detect_crisis; now rewrite H|].
  rewrite !generate_response_unfold. cbv zeta. rewrite Hn.
  unfold sentiment_of. rewrite Ha. now apply rule_based_lower.
Qed.

Lemma reply_ignores_letter_case_witness :
  _analyze_sentiment "I AM SO Stressed today" = _analyze_sentiment "i am so stressed today" /\
  detect_crisis "I AM SO Stressed today" = detect_crisis "i am so stressed today" /\
  generate_response (init None) 2 "I AM SO Stressed today" None None None
  = generate_response (init None) 2 "i am so stressed today" None None None.
Proof.
  apply (reply_ignores_letter_case (init None) 2 "I AM SO Stressed today"
           "i am so stressed today" None None None); reflexivity.
Defined.

(** X5. Without a generator neither the emotion history nor the conversation
    history changes the reply: of the emotional context only the current
    emotion is read. *)
Theorem rule_reply_ignores_history (self : TherapeuticChatbot) (seed : nat)
    (message : string) (cur : option string)
    (eh1 eh2 : option (list EmotionRecord)) (ch1 ch2 : option (list HistoryMessage)) :
  openai_client self = None ->
  generate_response self seed message cur eh1 ch1
  = generate_response self seed message cur eh2 ch2.
Proof.
  intros Hn. rewrite !generate_response_unfold. cbv zeta. rewrite Hn.
  apply rule_based_current_only. now rewrite !build_context_current.
Qed.

Lemma rule_reply_ignores_history_witness :
  generate_response (init None) 4 "Work has been piling up on me lately" (Some "sad"%string)
    None None
  = generate_response (init None) 4 "Work has been piling up on me lately" (Some "sad"%string)
      (Some [ {| dominant_emotion := Some "angry"%string |} ])
      (Some [ {| role := Some "user"%string; content := Some "hello"%string |} ]).
Proof.
  apply (rule_reply_ignores_history (init None) 4 "Work has been piling up on me lately").
  reflexivity.
Defined.

(** [generate_response] raises nothing, whatever the generator does. *)
Lemma generate_response_returns (self : TherapeuticChatbot) (seed : nat)
    (message : string) (cur : option string) (eh : option (list EmotionRecord))
    (ch : option (list HistoryMessage)) :
  exists r, generate_response self seed message cur eh ch = Returned r.
Proof.
  rewrite generate_response_unfold. cbv zeta.
  destruct (rule_based_spec seed message (sentiment_of message)
              (_build_emotional_context cur eh)) as (pool & r & Hr & _).
  destruct (openai_client self) as [client|]; [|now exists r].
  destruct (client _) as [response|e]; [|now exists r].
  destruct (first_content response) as [text|e]; [now exists text | now exists r].
Qed.

(** X6. The chat endpoint rejects a message of blank characters only with
    status 400 and answers every other message with status 200, whatever
    the generator does; the crisis flag is the detector's verdict on the
    stripped message. *)
Theorem chat_message_status (chatbot : TherapeuticChatbot) (seed : nat)
    (data_message : string) (cur : option string) (eh : list EmotionRecord)
    (ch : list HistoryMessage) :
  (blank data_message = true ->
   App.chat_message chatbot seed data_message cur eh ch
   = App.Error400 "Message cannot be empty") /\
  (blank data_message = false ->
   exists r,
     generate_response chatbot seed (strip data_message) cur (Some eh) (Some ch)
     = Returned r /\
     App.chat_message chatbot seed data_message cur eh ch
     = App.Ok200 r (detect_crisis (strip data_message))).
Proof.
  unfold App.chat_message. split; intros Hb.
  - apply strip_empty_iff in Hb. now rewrite Hb.
  - assert (Hs : (strip data_message =? "")%string = false).
    { apply String.eqb_neq. intros E. apply strip_empty_iff in E. congruence. }
    rewrite Hs.
    destruct (generate_response_returns chatbot seed (strip data_message) cur
                (Some eh) (Some ch)) as (r & Hr).
    exists r. now rewrite Hr.
Qed.

Lemma pool_members_not_empty (pool : list string) (r : string) :
  pool = crisis_responses \/ non_crisis_pool pool -> In r pool -> r <> ""%string.
Proof.
  unfold non_crisis_pool. intros Hpool Hr.
  decompose [or] Hpool; clear Hpool;
    try match goal with H : exists _, _ |- _ => destruct H as [emotion H] end;
    subst pool; cbn [In crisis_responses greeting_responses stress_responses
                     sadness_responses anger_responses fear_responses
                     mismatch_responses reflective_responses] in Hr;
    decompose [or] Hr; clear Hr; try contradiction; subst r; discriminate.
Qed.

(** X7. When the generator is not configured or fails, the reply is never the
    empty string. *)
Theorem rule_reply_not_empty (self : TherapeuticChatbot) (seed : nat)
    (message : string) (cur : option string) (eh : option (list EmotionRecord))
    (ch : option (list HistoryMessage)) :
  generator_fails self (request_of self message cur eh ch) ->
  exists r, generate_response self seed message cur eh ch = Returned r /\
            r <> ""%string.
Proof.
  intros Hf. rewrite (failure_takes_rule_path _ _ _ _ _ _ Hf).
  destruct (rule_based_spec seed message (sentiment_of message)
              (_build_emotional_context cur eh)) as (pool & r & Hr & Hin & Hcase).
  exists r. split; [exact Hr|]. apply (pool_members_not_empty pool r); [|exact Hin].
  destruct Hcase as [[_ ->]|[_ H]]; [now left | now right].
Qed.

Lemma rule_reply_not_empty_witness :
  exists r, generate_response (init None) 0 "?" None None None = Returned r /\
            r <> ""%string.
Proof.
  apply (rule_reply_not_empty (init None) 0 "?" None None None).
  apply not_configured. reflexivity.
Defined.

(** X8. When the generator is not configured or fails, the reply to a message
    classified as crisis names the 988 lifeline. *)
Theorem crisis_reply_names_988 (self : TherapeuticChatbot) (seed : nat)
    (message : string) (cur : option string) (eh : option (list EmotionRecord))
    (ch : option (list HistoryMessage)) :
  generator_fails self (request_of self message cur eh ch) ->
  _analyze_sentiment message = Returned Crisis ->
  exists r, generate_response self seed message cur eh ch = Returned r /\
            contains "988" r = true.
Proof.
  intros Hf Hc. rewrite (failure_takes_rule_path _ _ _ _ _ _ Hf).
  assert (Hs : sentiment_of message = Crisis)
    by (unfold sentiment_of; now rewrite Hc).
  rewrite Hs. unfold _generate_rule_based_response, _select_response. cbn [sentiment_eqb].
  destruct (random_choice_returns seed crisis_responses) as (r & Hr & Hin);
    [discriminate|].
  exists r. split; [exact Hr|].
  cbn [In crisis_responses] in Hin.
  decompose [or] Hin; try contradiction; subst r; reflexivity.
Qed.

Lemma crisis_reply_names_988_witness :
  exists r,
    generate_response (init (Some timing_out)) 5 "I want to hurt myself" None None None
    = Returned r /\ contains "988" r = true.
Proof.
  apply (crisis_reply_names_988 (init (Some timing_out)) 5 "I want to hurt myself"
           None None None).
  - apply (call_raises _ _ timing_out (APIError "timeout")); reflexivity.
  - reflexivity.
Defined.

(** A word of a fixed lower-case list occurs in the message, in any
    letter case, exactly when [any_in] finds it in the lowered message. *)
Lemma any_in_occurs (words : list string) (message : string) :
  (forall w, In w words -> lower w = w) ->
  (any_in words (lower message) = true <->
   exists w, In w words /\ occurs_ci w message).
Proof.
  intros Hl. rewrite any_in_spec.
  split; intros (w & Hin & Hw); exists w; split; trivial.
  - apply contains_lower_iff. now rewrite (Hl w Hin).
  - apply contains_lower_iff in Hw. now rewrite (Hl w Hin) in Hw.
Qed.

Lemma greeting_words_lowercase (w : string) : In w greeting_words -> lower w = w.
Proof.
  cbn [In greeting_words]. intros H.
  decompose [or] H; try contradiction; subst; reflexivity.
Qed.

(** X9. A greeting word anywhere in a message that is not a crisis, also
    inside another word or beside emotion keywords, selects the greeting
    pool. *)
Theorem greeting_word_wins (seed : nat) (message : string) (sentiment : Sentiment)
    (ctx : EmotionalContext) :
  sentiment <> Crisis ->
  (exists g, In g greeting_words /\ occurs_ci g message) ->
  exists r, _generate_rule_based_response seed message sentiment ctx = Returned r /\
            In r greeting_responses.
Proof.
  intros Hs Hg. apply (any_in_occurs greeting_words message greeting_words_lowercase) in Hg.
  unfold greeting_words in Hg.
  unfold _generate_rule_based_response, _select_response.
  rewrite (sentiment_eqb_neq _ _ Hs), Hg.
  apply random_choice_returns. discriminate.
Qed.

Lemma greeting_word_wins_witness :
  _analyze_sentiment "I think I am depressed and lonely" = Returned Sadness /\
  exists r,
    _generate_rule_based_response 1 "I think I am depressed and lonely" Sadness
      {| current := None; recent_pattern := None |} = Returned r /\
    In r greeting_responses.
Proof.
  split; [reflexivity|].
  apply (greeting_word_wins 1 "I think I am depressed and lonely" Sadness).
  - discriminate.
  - exists "hi"%string. split; [cbn; tauto|].
    exists "I t"%string, "hi"%string, "nk I am depressed and lonely"%string.
    split; reflexivity.
Defined.

(** X10. The words [stressed] and [anxious] select the stress pool whatever
    the classifier returned short of crisis, when no greeting word occurs. *)
Theorem stress_word_selects_stress_pool (seed : nat) (message : string)
    (sentiment : Sentiment) (ctx : EmotionalContext) :
  sentiment <> Crisis ->
  (forall g, In g greeting_words -> ~ occurs_ci g message) ->
  occurs_ci "stressed" message \/ occurs_ci "anxious" message ->
  exists r, _generate_rule_based_response seed message sentiment ctx = Returned r /\
            In r stress_responses.
Proof.
  intros Hs Hg Hw.
  assert (Hng : any_in ["hello"; "hi"; "hey"; "start"; "begin"] (lower message) = false).
  { destruct (any_in _ (lower message)) eqn:E; [|reflexivity].
    apply (any_in_occurs greeting_words message greeting_words_lowercase) in E.
    destruct E as (g & Hin & Hoc). now elim (Hg g Hin). }
  assert (Hc : contains "stressed" (lower message) || contains "anxious" (lower message)
               = true).
  { apply orb_true_iff.
    destruct Hw as [H|H]; [left|right];
      now apply (contains_lower_iff _ message) in H. }
  unfold _generate_rule_based_response, _select_response.
  rewrite (sentiment_eqb_neq _ _ Hs), Hng.
  rewrite <- orb_assoc, Hc, orb_true_r.
  apply random_choice_returns. discriminate.
Qed.

Lemma no_greeting_word (message : string) :
  any_in greeting_words (lower message) = false ->
  forall g, In g greeting_words -> ~ occurs_ci g message.
Proof.
  intros H g Hin Hoc.
  assert (any_in greeting_words (lower message) = true); [|congruence].
  apply (any_in_occurs greeting_words message greeting_words_lowercase). eauto.
Qed.

Lemma stress_word_selects_stress_pool_witness :
  _analyze_sentiment "afraid, scared and anxious" = Returned Fear /\
  exists r,
    _generate_rule_based_response 0 "afraid, scared and anxious" Fear
      {| current := None; recent_pattern := None |} = Returned r /\
    In r stress_responses.
Proof.
  split; [reflexivity|].
  apply (stress_word_selects_stress_pool 0 "afraid, scared and anxious" Fear).
  - discriminate.
  - apply no_greeting_word. reflexivity.
  - right. exists "afraid, scared and "%string, "anxious"%string, ""%string.
    split; reflexivity.
Defined.

(** The pools of the branches that come before the check of the word
    count. *)
Definition early_pool (pool : list string) : Prop :=
  pool = crisis_responses \/ pool = greeting_responses \/ pool = stress_responses \/
  pool = sadness_responses \/ pool = anger_responses \/ pool = fear_responses \/
  pool = [feeling_probe] \/ pool = [listening_prompt].

Lemma early_pool_not_mismatch (pool : list string) (r emotion : string) :
  early_pool pool -> In r pool -> ~ In r (mismatch_responses emotion).
Proof.
  unfold early_pool. intros Hpool Hr.
  decompose [or] Hpool; clear Hpool; subst pool;
    cbn [In crisis_responses greeting_responses stress_responses
            sadness_responses anger_responses fear_responses] in Hr;
    decompose [or] Hr; clear Hr; try contradiction; subst r;
    cbn [In mismatch_responses];
    intros Hin; decompose [or] Hin; clear Hin; try contradiction;
    match goal with H : _ = _ |- _ => solve [inversion H] end.
Qed.

(** X11. A message of fewer than five words is never answered from the
    mismatch pool, whatever the detected emotion: the check of the word
    count comes first. *)
Theorem short_message_skips_mismatch (seed : nat) (message : string)
    (sentiment : Sentiment) (ctx : EmotionalContext) (emotion : string) :
  List.length (split message) < 5 ->
  exists r, _generate_rule_based_response seed message sentiment ctx = Returned r /\
            ~ In r (mismatch_responses emotion).
Proof.
  intros Hlen.
  assert (Hpick : forall pool, pool <> [] -> early_pool pool ->
            exists r, random_choice seed pool = Returned r /\
                      ~ In r (mismatch_responses emotion)).
  { intros pool Hne Hp. destruct (random_choice_returns seed pool Hne) as (r & Hr & Hin).
    exists r. split; [exact Hr|]. now apply (early_pool_not_mismatch pool). }
  unfold _generate_rule_based_response, _select_response.
  apply Nat.ltb_lt in Hlen. rewrite Hlen. unfold early_pool in Hpick.
  repeat match goal with
         | |- context [if ?b then _ else _] => destruct b
         end;
    try (apply Hpick; [discriminate | tauto]).
  - exists feeling_probe. split; [reflexivity|].
    apply (early_pool_not_mismatch [feeling_probe]); [unfold early_pool; tauto | now left].
  - exists listening_prompt. split; [reflexivity|].
    apply (early_pool_not_mismatch [listening_prompt]); [unfold early_pool; tauto | now left].
Qed.

Lemma short_message_skips_mismatch_witness :
  exists r,
    _generate_rule_based_response 0 "I'm fine" Neutral
      {| current := Some "sad"%string; recent_pattern := None |} = Returned r /\
    ~ In r (mismatch_responses "sad").
Proof.
  apply (short_message_skips_mismatch 0 "I'm fine" Neutral). vm_compute. lia.
Defined.

(** X12. When the generator answers, the reply is the content of its first
    choice without surrounding blanks, further choices are not read, and
    stripping the reply again changes nothing. *)
Theorem generated_reply_is_stripped (self : TherapeuticChatbot) (client : Client)
    (seed : nat) (message : string) (cur : option string)
    (eh : option (list EmotionRecord)) (ch : option (list HistoryMessage))
    (raw : string) (others : list Choice) :
  openai_client self = Some client ->
  client (request_of self message cur eh ch)
  = Returned {| choices := {| message_content := Some raw |} :: others |} ->
  generate_response self seed message cur eh ch = Returned (strip raw) /\
  strip (strip raw) = strip raw.
Proof.
  intros Hc Hr. split; [|apply strip_idempotent].
  rewrite generate_response_unfold. cbv zeta. now rewrite Hc, Hr.
Qed.

Lemma generated_reply_is_stripped_witness :
  generate_response (init (Some healthy)) 0 "How are things" None None None
  = Returned (strip " I am here for you. ") /\
  strip (strip " I am here for you. ") = strip " I am here for you. ".
Proof.
  apply (generated_reply_is_stripped (init (Some healthy)) healthy 0 "How are things"
           None None None " I am here for you. " []); reflexivity.
Defined.

End ArbitrationExtras.

(** ** Slices *)

Module SliceFacts.
Import Py.
Local Open Scope list_scope.

Lemma last_n_length {A : Type} (n : nat) (l : list A) :
  List.length (last_n n l) = Nat.min n (List.length l).
Proof. unfold last_n. rewrite length_skipn. lia. Qed.

(** [(older + recent)[-n:]] is [recent] when [recent] has [n] elements. *)
Lemma last_n_app {A : Type} (n : nat) (older recent : list A) :
  List.length recent = n -> last_n n (older ++ recent) = recent.
Proof.
  intros H. unfold last_n. rewrite length_app, H.
  replace (List.length older + n - n) with (List.length older) by lia.
  rewrite skipn_app, skipn_all, Nat.sub_diag. reflexivity.
Qed.

Lemma last_n_all {A : Type} (n : nat) (l : list A) :
  List.length l = n -> last_n n l = l.
Proof. intros H. exact (last_n_app n [] l H). Qed.

End SliceFacts.

(** ** The request sent to the generator *)

Module RequestExtras.
Import Py PyStr Chatbot SliceFacts.
Local Open Scope list_scope.

(** How a turn of the history is sent. *)
Definition sent_turn (msg : HistoryMessage) : ChatMessage :=
  {| msg_role := match role msg with
                 | Some r => if (r =? "user")%string then "user" else "assistant"
                 | None => "assistant"
                 end;
     msg_content := match content msg with
                    | Some c => c
                    | None => ""
                    end |}.

Lemma build_messages_eq (self : TherapeuticChatbot) (message : string)
    (sentiment : Sentiment) (ctx : EmotionalContext) (h : list HistoryMessage) :
  build_messages self message sentiment ctx (Some h)
  = {| msg_role := "system"; msg_content := system_content_of self sentiment ctx |}
      :: map sent_turn (last_n 10 h)
      ++ [ {| msg_role := "user"; msg_content := message |} ].
Proof. reflexivity. Qed.

(** X13. The request holds the system message first, then at most the last ten
    turns of the history, each as a user or an assistant message, then
    the new message as a user message: between 2 and 12 messages, with
    the fixed model name and generation length. *)
Theorem request_shape (self : TherapeuticChatbot) (message : string)
    (sentiment : Sentiment) (ctx : EmotionalContext) (h : list HistoryMessage) :
  let req := build_request self message sentiment ctx (Some h) in
  let n := Nat.min 10 (List.length h) in
  List.length (messages req) = 2 + n /\
  List.length (messages req) <= 12 /\
  nth_error (messages req) 0
  = Some {| msg_role := "system"; msg_content := system_content_of self sentiment ctx |} /\
  nth_error (messages req) (1 + n)
  = Some {| msg_role := "user"; msg_content := message |} /\
  (forall i msg, 0 < i -> nth_error (messages req) i = Some msg ->
                 msg_role msg = "user"%string \/ msg_role msg = "assistant"%string) /\
  model req = "gpt-3.5-turbo"%string /\ max_tokens req = 300.
Proof.
  cbv zeta. cbn [build_request messages model max_tokens].
  rewrite build_messages_eq.
  assert (Hlen : List.length (map sent_turn (last_n 10 h)) = Nat.min 10 (List.length h))
    by now rewrite length_map, last_n_length.
  repeat split.
  - cbn [List.length]. rewrite length_app, Hlen. cbn [List.length]. lia.
  - cbn [List.length]. rewrite length_app, Hlen. cbn [List.length]. lia.
  - cbn [Nat.add nth_error]. rewrite nth_error_app2; rewrite Hlen; [|lia].
    now rewrite Nat.sub_diag.
  - intros i msg Hi Hnth. destruct i as [|i]; [lia|]. cbn [nth_error] in Hnth.
    apply nth_error_In, in_app_iff in Hnth. destruct Hnth as [Hin|[<-|[]]].
    + apply in_map_iff in Hin. destruct Hin as (t & <- & _).
      unfold sent_turn. cbn [msg_role].
      destruct (role t) as [r|]; [destruct (r =? "user")%string|]; tauto.
    + now left.
Qed.

(** X14. Turns older than the last ten do not reach the generator. *)
Theorem older_turns_are_not_sent (self : TherapeuticChatbot) (message : string)
    (sentiment : Sentiment) (ctx : EmotionalContext)
    (older recent : list HistoryMessage) :
  List.length recent = 10 ->
  build_request self message sentiment ctx (Some (older ++ recent))
  = build_request self message sentiment ctx (Some recent).
Proof.
  intros H. unfold build_request. f_equal.
  rewrite !build_messages_eq.
  now rewrite (last_n_app 10 older recent H), (last_n_all 10 recent H).
Qed.

Lemma older_turns_are_not_sent_witness :
  build_request (init None) "and then?" Neutral {| current := None; recent_pattern := None |}
    (Some ([ {| role := Some "user"%string; content := Some "I want to die"%string |} ]
           ++ repeat {| role := Some "assistant"%string; content := Some "ok"%string |} 10))
  = build_request (init None) "and then?" Neutral {| current := None; recent_pattern := None |}
      (Some (repeat {| role := Some "assistant"%string; content := Some "ok"%string |} 10)).
Proof.
  apply (older_turns_are_not_sent (init None) "and then?" Neutral).
  reflexivity.
Defined.

End RequestExtras.

(** ** The emotional context *)

Module FusionExtras.
Import Py PyStr Chatbot FusionFacts SliceFacts.
Local Open Scope list_scope.

(** X15. The context has no recent pattern exactly when there is no history or
    an empty one, and no current emotion exactly when none or the empty
    string was given. *)
Theorem context_absent_iff (cur : option string) (eh : option (list EmotionRecord)) :
  (recent_pattern (_build_emotional_context cur eh) = None <->
   eh = None \/ eh = Some []) /\
  (current (_build_emotional_context cur eh) = None <->
   cur = None \/ cur = Some ""%string).
Proof.
  split.
  - split.
    + intros H. destruct eh as [[|e h]|]; [now right| |now left].
      destruct (recent_pattern_eq cur (e :: h)) as (top & rest & _ & Hrp);
        [discriminate|]. congruence.
    + intros [->| ->]; reflexivity.
  - rewrite ArbitrationExtras.build_context_current.
    destruct cur as [s|]; cbn [truthy].
    + destruct (String.eqb_spec s "") as [->|Hne]; cbn [negb].
      * split; [now right | reflexivity].
      * split; [discriminate | intros [H|H]; [discriminate H | congruence]].
    + split; [now left | reflexivity].
Qed.

Lemma build_context_nonempty (cur : option string) (history : list EmotionRecord) :
  history <> [] ->
  _build_emotional_context cur (Some history)
  = let c := if truthy cur then cur else None in
    match recent_emotions_of history with
    | [] => {| current := c; recent_pattern := None |}
    | _ :: _ =>
        match most_common_1 (Counter (recent_emotions_of history)) with
        | [] => {| current := c; recent_pattern := None |}
        | top :: _ => {| current := c; recent_pattern := Some (fst top) |}
        end
    end.
Proof. destruct history; [congruence | reflexivity]. Qed.

(** X16. Records older than the last five do not change the context. *)
Theorem older_records_do_not_count (cur : option string)
    (older recent : list EmotionRecord) :
  List.length recent = 5 ->
  _build_emotional_context cur (Some (older ++ recent))
  = _build_emotional_context cur (Some recent).
Proof.
  intros H.
  assert (Hr : recent <> []) by (destruct recent; [discriminate H | discriminate]).
  assert (Ho : older ++ recent <> [])
    by (intros E; apply app_eq_nil in E; tauto).
  rewrite (build_context_nonempty cur _ Ho), (build_context_nonempty cur _ Hr).
  unfold recent_emotions_of.
  now rewrite (last_n_app 5 older recent H), (last_n_all 5 recent H).
Qed.

Lemma older_records_do_not_count_witness :
  _build_emotional_context None
    (Some (repeat {| dominant_emotion := Some "angry"%string |} 7
           ++ repeat {| dominant_emotion := Some "happy"%string |} 5))
  = _build_emotional_context None
      (Some (repeat {| dominant_emotion := Some "happy"%string |} 5)).
Proof.
  apply (older_records_do_not_count None). reflexivity.
Defined.

(** The pattern is a most frequent label of the window. *)
Lemma pattern_most_frequent (cur : option string) (history : list EmotionRecord) :
  history <> [] ->
  exists p,
    recent_pattern (_build_emotional_context cur (Some history)) = Some p /\
    forall x, occurrences (recent_emotions_of history) x
              <= occurrences (recent_emotions_of history) p.
Proof.
  intros Hne.
  destruct (recent_pattern_eq cur history Hne) as (top & rest & HC & Hrp).
  set (labels := recent_emotions_of history) in *.
  destruct (Counter_spec labels) as (Hnd & Hlk & Hkeys & _).
  destruct (max_from_spec snd top rest) as (c1 & c2 & Hdec & Hlt & Hle).
  set (m := max_from Nat.ltb snd top rest) in *.
  rewrite HC in Hnd, Hlk, Hkeys. rewrite Hdec in Hnd, Hlk, Hkeys.
  assert (Hcount : forall k n, In (k, n) (c1 ++ m :: c2) -> n = occurrences labels k).
  { intros k n Hin. rewrite <- Hlk. symmetry. now apply lookup_in. }
  assert (Hm : snd m = occurrences labels (fst m)).
  { apply Hcount. rewrite <- surjective_pairing. apply in_elt. }
  exists (fst m). split; [exact Hrp|].
  intros x. destruct (in_dec string_dec x labels) as [Hx|Hx].
  - apply Hkeys, in_map_iff in Hx. destruct Hx as ([k n] & Hk & Hin).
    simpl in Hk. subst k. rewrite <- (Hcount x n Hin), <- Hm.
    apply in_app_iff in Hin. destruct Hin as [Hin|[Hin|Hin]].
    + specialize (Hlt _ Hin). simpl in Hlt. lia.
    + rewrite Hin. simpl. lia.
    + apply (Hle _ Hin).
  - unfold occurrences at 1. rewrite (proj1 (count_occ_not_In string_dec _ _) Hx). lia.
Qed.

Lemma two_labels_share_the_window (l : list string) (x y : string) :
  x <> y -> occurrences l x + occurrences l y <= List.length l.
Proof.
  intros Hxy. unfold occurrences. induction l as [|a l IH]; simpl; [lia|].
  destruct (string_dec a x), (string_dec a y); subst; try congruence; lia.
Qed.

(** X17. A label that holds more than half of the window is the pattern. *)
Theorem majority_label_is_pattern (cur : option string)
    (history : list EmotionRecord) (label : string) :
  history <> [] ->
  List.length (recent_emotions_of history)
  < 2 * occurrences (recent_emotions_of history) label ->
  recent_pattern (_build_emotional_context cur (Some history)) = Some label.
Proof.
  intros Hne Hmaj.
  destruct (pattern_most_frequent cur history Hne) as (p & Hp & Hmax).
  rewrite Hp. f_equal. destruct (string_dec p label) as [E|E]; [exact E|].
  pose proof (two_labels_share_the_window (recent_emotions_of history) p label E).
  specialize (Hmax label). lia.
Qed.

Lemma majority_label_is_pattern_witness :
  recent_pattern
    (_build_emotional_context None
       (Some (map (fun d => {| dominant_emotion := Some d |})
                  ["fear"; "sad"; "happy"; "sad"; "sad"]%string)))
  = Some "sad"%string.
Proof.
  apply (majority_label_is_pattern None
           (map (fun d => {| dominant_emotion := Some d |})
                ["fear"; "sad"; "happy"; "sad"; "sad"]%string) "sad").
  - discriminate.
  - vm_compute. lia.
Defined.

End FusionExtras.


(** ** backend/emotion_detector.py: the loop over the faces *)

Module DetectorLoop.
Import Py EmotionDetector.
Local Open Scope list_scope.
Local Open Scope Q_scope.

Section Faces.

(** A face region cut out of the image. *)
Variable Face : Type.

(** [_basic_emotion_estimation]: the same scores for every face. *)
Definition _basic_emotion_estimation (face_roi : Face) : EmotionMap :=
  [ ("angry"%string, 1 # 10); ("disgust"%string, 1 # 20); ("fear"%string, 1 # 10);
    ("happy"%string, 1 # 5); ("sad"%string, 3 # 20); ("surprise"%string, 1 # 10);
    ("neutral"%string, 3 # 10) ].

(** [fer_detector.detect_emotions(face_roi)]: the ['emotions'] maps of the
    faces the library finds in the region, or an exception. *)
Definition Fer : Type := Face -> outcome (list EmotionMap).

(** What one turn of the loop appends to [all_emotions]. *)
Definition face_scores (fer_detector : option Fer) (face_roi : Face) : list EmotionMap :=
  match fer_detector with
  | Some fer =>
      match fer face_roi with
      | Returned (first :: _) => [first]
      | Returned [] => []
      | Raised _ => [_basic_emotion_estimation face_roi]
      end
  | None => [_basic_emotion_estimation face_roi]
  end.

(** [all_emotions] after the loop. *)
Definition all_emotions_of (fer_detector : option Fer) (faces : list Face)
  : list EmotionMap :=
  flat_map (face_scores fer_detector) faces.

(** [detect_emotions] from the faces the cascade found. *)
Definition detect_emotions_on (fer_detector : option Fer) (faces : list Face)
  : Detection :=
  detect_emotions (List.length faces) (all_emotions_of fer_detector faces).

End Faces.

End DetectorLoop.

(** ** Detection results *)

Module DetectorExtras.
Import Py EmotionDetector EmotionFacts DetectorLoop.
Local Open Scope list_scope.
Local Open Scope Q_scope.

(** *** Labels *)

Lemma has_key_in (emotion : string) (aggregated : EmotionMap) :
  has_key emotion aggregated = true <-> In emotion (map fst aggregated).
Proof.
  unfold has_key. rewrite existsb_exists. split.
  - intros (kv & Hin & Hk). apply String.eqb_eq in Hk. subst. now apply in_map.
  - intros H. apply in_map_iff in H. destruct H as (kv & <- & Hin).
    exists kv. split; [exact Hin | apply String.eqb_refl].
Qed.

Lemma get_add_to_other (label emotion : string) (value : Q) (aggregated : EmotionMap) :
  label <> emotion -> get label (add_to emotion value aggregated) = get label aggregated.
Proof.
  intros Hne. induction aggregated as [|[k v] t IH]; simpl; [reflexivity|].
  destruct (String.eqb_spec k emotion) as [->|Hk]; simpl.
  - destruct (String.eqb_spec emotion label); [congruence | reflexivity].
  - now rewrite IH.
Qed.

Lemma get_add_face_other (label : string) (emotions aggregated : EmotionMap) :
  (forall kv, In kv emotions -> fst kv <> label) ->
  get label (add_face aggregated emotions) = get label aggregated.
Proof.
  unfold add_face. revert aggregated.
  induction emotions as [|kv t IH]; intros aggregated H; simpl; [reflexivity|].
  rewrite IH; [|intros kv' Hin; apply H; now right].
  destruct (has_key (fst kv) aggregated); [|reflexivity].
  apply get_add_to_other. intros E. apply (H kv); [now left | now symmetry].
Qed.

Lemma get_label_sums_unseen (label : string) (emotion_list : list EmotionMap) :
  (forall emotions kv, In emotions emotion_list -> In kv emotions -> fst kv <> label) ->
  get label (label_sums emotion_list) == 0.
Proof.
  unfold label_sums.
  assert (H : forall start,
             (forall emotions kv, In emotions emotion_list -> In kv emotions ->
                                  fst kv <> label) ->
             get label (fold_left add_face emotion_list start) = get label start).
  { induction emotion_list as [|f t IH]; intros start Hl; simpl; [reflexivity|].
    rewrite IH; [|intros e kv He; apply Hl; now right].
    apply get_add_face_other. intros kv Hkv. apply (Hl f kv); [now left | exact Hkv]. }
  intros Hl. rewrite (H _ Hl).
  induction emotion_labels as [|e t IHt]; cbn [map get]; [reflexivity|].
  destruct (e =? label)%string; [reflexivity | exact IHt].
Qed.

Lemma get_map_div (label : string) (total : Q) (aggregated : EmotionMap) :
  get label (map (fun kv => (fst kv, snd kv / total)) aggregated)
  == get label aggregated / total.
Proof.
  induction aggregated as [|[k v] t IH]; simpl.
  - unfold Qdiv. now rewrite Qmult_0_l.
  - destruct (k =? label)%string; [reflexivity | exact IH].
Qed.

(** X18. The result of the aggregation always has the seven labels, in the
    fixed order, whatever labels the faces carry, and a label that no face
    mentions has weight 0. *)
Theorem aggregate_has_seven_labels (emotion_list : list EmotionMap) :
  exists v,
    _aggregate_emotions emotion_list = Returned v /\
    map fst v = emotion_labels /\
    forall label,
      (forall emotions kv, In emotions emotion_list -> In kv emotions ->
                           fst kv <> label) ->
      get label v == 0.
Proof.
  destruct (Qlt_le_dec 0 (total_of emotion_list)) as [Hpos|Hle].
  - rewrite (aggregate_positive _ Hpos). eexists. split; [reflexivity|]. split.
    + rewrite map_map. simpl. apply label_sums_keys.
    + intros label Hl. rewrite get_map_div, (get_label_sums_unseen label _ Hl).
      unfold Qdiv. now rewrite Qmult_0_l.
  - rewrite aggregate_not_positive; [|now apply Qle_not_lt].
    eexists. split; [reflexivity|]. split; [apply label_sums_keys|].
    intros label Hl. now apply get_label_sums_unseen.
Qed.

Lemma has_key_same_keys (emotion : string) (a b : EmotionMap) :
  map fst a = map fst b -> has_key emotion a = has_key emotion b.
Proof.
  intros H. destruct (has_key emotion a) eqn:Ea; symmetry.
  - apply has_key_in. rewrite <- H. now apply has_key_in.
  - destruct (has_key emotion b) eqn:Eb; [|reflexivity].
    apply has_key_in in Eb. rewrite <- H in Eb. apply has_key_in in Eb. congruence.
Qed.

Lemma add_face_skips_unknown (aggregated f1 f2 : EmotionMap) (kv : string * Q) :
  ~ In (fst kv) (map fst aggregated) ->
  add_face aggregated (f1 ++ kv :: f2) = add_face aggregated (f1 ++ f2).
Proof.
  intros Hk. unfold add_face. rewrite !fold_left_app. cbn [fold_left].
  set (mid := fold_left _ f1 aggregated).
  assert (Hmid : map fst mid = map fst aggregated) by apply add_face_keys.
  destruct (has_key (fst kv) mid) eqn:E; [|reflexivity].
  apply has_key_in in E. rewrite Hmid in E. contradiction.
Qed.

Lemma fold_add_face_keys (emotion_list : list EmotionMap) (start : EmotionMap) :
  map fst (fold_left add_face emotion_list start) = map fst start.
Proof.
  revert start. induction emotion_list as [|f t IH]; intros start; simpl; [reflexivity|].
  now rewrite IH, add_face_keys.
Qed.

(** X19. A score under a label outside the seven changes nothing. *)
Theorem unknown_label_is_dropped (before after : list EmotionMap)
    (f1 f2 : EmotionMap) (kv : string * Q) :
  ~ In (fst kv) emotion_labels ->
  _aggregate_emotions (before ++ (f1 ++ kv :: f2) :: after)
  = _aggregate_emotions (before ++ (f1 ++ f2) :: after).
Proof.
  intros Hk.
  assert (Hs : label_sums (before ++ (f1 ++ kv :: f2) :: after)
               = label_sums (before ++ (f1 ++ f2) :: after)).
  { unfold label_sums. rewrite !fold_left_app. cbn [fold_left]. f_equal.
    apply add_face_skips_unknown. now rewrite fold_add_face_keys. }
  unfold _aggregate_emotions. now rewrite Hs.
Qed.

Lemma unknown_label_is_dropped_witness :
  _aggregate_emotions ([] ++ ([("happy"%string, 1 # 2)] ++ ("contempt"%string, 9 # 1) :: []) :: [])
  = _aggregate_emotions ([] ++ ([("happy"%string, 1 # 2)] ++ []) :: []).
Proof.
  apply (unknown_label_is_dropped [] [] [("happy"%string, 1 # 2)] [] ("contempt"%string, 9 # 1)).
  cbn [fst In emotion_labels]. intros H.
  decompose [or] H; try contradiction; discriminate.
Defined.

(** *** The dominant emotion *)

(** [max] over rational keys: the first element with the greatest key. *)
Lemma max_from_Q_spec {A : Type} (key : A -> Q) (best : A) (l : list A) :
  exists c1 c2,
    best :: l = c1 ++ max_from Qltb key best l :: c2 /\
    (forall y, In y c1 -> key y < key (max_from Qltb key best l)) /\
    (forall y, In y c2 -> key y <= key (max_from Qltb key best l)).
Proof.
  revert best. induction l as [|x t IH]; intros best; cbn [max_from].
  - exists [], []. simpl. tauto.
  - destruct (Qltb (key best) (key x)) eqn:E.
    + apply Qltb_lt in E.
      destruct (IH x) as (c1 & c2 & Heq & H1 & H2).
      exists (best :: c1), c2. split; [now rewrite Heq|]. split; [|exact H2].
      intros y [<-|Hy]; [|now apply H1].
      assert (Hx : In x (c1 ++ max_from Qltb key x t :: c2))
        by (rewrite <- Heq; now left).
      apply in_app_iff in Hx. destruct Hx as [Hx|[Hx|Hx]].
      * specialize (H1 x Hx). lra.
      * rewrite Hx. exact E.
      * specialize (H2 x Hx). lra.
    + assert (Hge : key x <= key best).
      { apply Qnot_lt_le. intros Hlt. apply Qltb_lt in Hlt. congruence. }
      destruct (IH best) as (c1 & c2 & Heq & H1 & H2).
      destruct c1 as [|b c1]; simpl in Heq; injection Heq as Hb Ht.
      * exists [], (x :: t). simpl. split; [now rewrite <- Hb|]. split; [tauto|].
        intros y [<-|Hy]; [rewrite <- Hb; exact Hge|]. apply H2. now rewrite <- Ht.
      * exists (best :: x :: c1), c2. split; [simpl; now rewrite <- Ht|].
        split; [|exact H2].
        assert (Hbest : key best < key (max_from Qltb key best t))
          by (apply H1; left; now symmetry).
        intros y [<-|[<-|Hy]]; [exact Hbest | lra | apply H1; now right].
Qed.

Lemma max_from_no_greater {A K : Type} (lt : K -> K -> bool) (key : A -> K)
    (best : A) (l : list A) :
  (forall y, In y l -> lt (key best) (key y) = false) ->
  max_from lt key best l = best.
Proof.
  induction l as [|x t IH]; intros H; cbn [max_from]; [reflexivity|].
  rewrite (H x (or_introl eq_refl)). apply IH. intros y Hy. apply H. now right.
Qed.

(** The result dict when at least one face has scores. *)
Lemma detect_emotions_scored (faces : nat) (all_emotions : list EmotionMap)
    (top : string * Q) (rest : EmotionMap) :
  faces <> 0%nat -> all_emotions <> [] ->
  _aggregate_emotions all_emotions = Returned (top :: rest) ->
  detect_emotions faces all_emotions
  = {| faces_detected := faces;
       dominant_emotion := fst (max_from Qltb snd top rest);
       emotions := top :: rest;
       confidence := snd (max_from Qltb snd top rest);
       error := None |}.
Proof.
  intros Hf Hl Ha. unfold detect_emotions.
  destruct (Nat.eqb_spec faces 0) as [|_]; [contradiction|].
  destruct all_emotions as [|f t]; [congruence|].
  rewrite Ha. reflexivity.
Qed.

(** X20. With at least one scored face the dominant emotion is one of the seven
    labels, the confidence is its weight, no weight is greater, and the
    labels that come before it in the fixed order weigh strictly less. *)
Theorem dominant_is_first_greatest (faces : nat) (all_emotions : list EmotionMap) :
  faces <> 0%nat -> all_emotions <> [] ->
  let d := detect_emotions faces all_emotions in
  faces_detected d = faces /\
  _aggregate_emotions all_emotions = Returned (emotions d) /\
  In (dominant_emotion d) emotion_labels /\
  exists pre post,
    emotions d = pre ++ (dominant_emotion d, confidence d) :: post /\
    (forall kv, In kv pre -> snd kv < confidence d) /\
    (forall kv, In kv post -> snd kv <= confidence d).
Proof.
  intros Hf Hl. cbv zeta.
  destruct (aggregate_returns all_emotions) as (v & Hv & Hk).
  destruct v as [|top rest]; [discriminate Hk|].
  rewrite (detect_emotions_scored faces all_emotions top rest Hf Hl Hv).
  cbn [faces_detected emotions dominant_emotion confidence].
  destruct (max_from_Q_spec snd top rest) as (c1 & c2 & Hdec & Hlt & Hle).
  split; [reflexivity|]. split; [exact Hv|]. split.
  - rewrite <- Hk, Hdec, map_app. apply in_app_iff. right. now left.
  - exists c1, c2. rewrite <- surjective_pairing. tauto.
Qed.

Lemma dominant_is_first_greatest_witness :
  let d := detect_emotions 2 two_faces in
  faces_detected d = 2%nat /\
  _aggregate_emotions two_faces = Returned (emotions d) /\
  In (dominant_emotion d) emotion_labels /\
  exists pre post,
    emotions d = pre ++ (dominant_emotion d, confidence d) :: post /\
    (forall kv, In kv pre -> snd kv < confidence d) /\
    (forall kv, In kv post -> snd kv <= confidence d).
Proof.
  apply (dominant_is_first_greatest 2 two_faces); discriminate.
Defined.

(** X21. Faces whose scores are all zero are reported as angry with confidence
    0: every weight stays 0 and [max] keeps the first label. *)
Theorem zero_scores_are_reported_angry (faces : nat) (all_emotions : list EmotionMap) :
  faces <> 0%nat -> all_emotions <> [] ->
  nonneg_scores all_emotions ->
  total_of all_emotions == 0 ->
  dominant_emotion (detect_emotions faces all_emotions) = "angry"%string /\
  confidence (detect_emotions faces all_emotions) == 0.
Proof.
  intros Hf Hl Hnn Hz.
  assert (Ha : _aggregate_emotions all_emotions = Returned (label_sums all_emotions)).
  { apply aggregate_not_positive. rewrite Hz. apply Qlt_irrefl. }
  assert (Hzero : Forall (fun v => v == 0) (map snd (label_sums all_emotions))).
  { apply py_sum_zero; [now apply label_sums_nonneg | exact Hz]. }
  pose proof (label_sums_keys all_emotions) as Hk.
  destruct (label_sums all_emotions) as [|top rest]; [discriminate Hk|].
  rewrite (detect_emotions_scored faces all_emotions top rest Hf Hl Ha).
  cbn [dominant_emotion confidence].
  rewrite max_from_no_greater.
  - inversion Hzero; subst. injection Hk as Hk _. split; assumption.
  - intros y Hy. inversion Hzero as [|? ? Htop Hrest]; subst.
    rewrite Forall_forall in Hrest.
    assert (Hy0 : snd y == 0) by (apply Hrest; now apply in_map).
    destruct (Qltb (snd top) (snd y)) eqn:E; [|reflexivity].
    apply Qltb_lt in E. rewrite Htop, Hy0 in E. now apply Qlt_irrefl in E.
Qed.

Lemma zero_scores_are_reported_angry_witness :
  dominant_emotion (detect_emotions 1 zero_scores) = "angry"%string /\
  confidence (detect_emotions 1 zero_scores) == 0.
Proof.
  apply (zero_scores_are_reported_angry 1 zero_scores).
  - discriminate.
  - discriminate.
  - intros emotions [<-|[]] kv [<-|[<-|[]]]; apply Qle_refl.
  - reflexivity.
Defined.

(** *** The loop over the faces *)

(** X22. When the library finds nothing in any face region, the result is the
    neutral one with confidence 0, and it still counts the faces. *)
Theorem no_scores_give_neutral {Face : Type} (fer : Fer Face) (faces : list Face) :
  (forall face, In face faces -> fer face = Returned []) ->
  detect_emotions_on Face (Some fer) faces
  = {| faces_detected := List.length faces;
       dominant_emotion := "neutral";
       emotions := [("neutral"%string, 1)];
       confidence := 0;
       error := None |}.
Proof.
  intros H. unfold detect_emotions_on.
  assert (Hall : all_emotions_of Face (Some fer) faces = []).
  { unfold all_emotions_of. induction faces as [|f t IH]; [reflexivity|].
    cbn [flat_map face_scores]. rewrite (H f (or_introl eq_refl)).
    apply IH. intros g Hg. apply H. now right. }
  rewrite Hall. unfold detect_emotions.
  destruct faces; reflexivity.
Qed.

Lemma no_scores_give_neutral_witness :
  detect_emotions_on nat (Some (fun _ => Returned [])) [4%nat; 7%nat]
  = {| faces_detected := List.length [4%nat; 7%nat];
       dominant_emotion := "neutral";
       emotions := [("neutral"%string, 1)];
       confidence := 0;
       error := None |}.
Proof.
  apply (no_scores_give_neutral (fun _ : nat => Returned []) [4%nat; 7%nat]).
  reflexivity.
Defined.

(** Every face is scored by the fallback estimator: there is no library
    detector, or it raises on each face. *)
Definition only_fallback {Face : Type} (fer_detector : option (Fer Face))
    (faces : list Face) : Prop :=
  match fer_detector with
  | None => True
  | Some fer => forall face, In face faces -> exists e, fer face = Raised e
  end.

Definition basic : EmotionMap := _basic_emotion_estimation unit tt.

Lemma all_emotions_fallback {Face : Type} (fer_detector : option (Fer Face))
    (faces : list Face) :
  only_fallback fer_detector faces ->
  all_emotions_of Face fer_detector faces = repeat basic (List.length faces).
Proof.
  intros H. unfold all_emotions_of. induction faces as [|f t IH]; [reflexivity|].
  cbn [flat_map List.length repeat]. rewrite IH.
  - destruct fer_detector as [fer|]; cbn [face_scores]; [|reflexivity].
    destruct (H f (or_introl eq_refl)) as [e He]. now rewrite He.
  - destruct fer_detector as [fer|]; [|exact I].
    intros g Hg. apply H. now right.
Qed.

(** A dict over the seven labels. *)
Definition seven (a0 a1 a2 a3 a4 a5 a6 : Q) : EmotionMap :=
  [ ("angry"%string, a0); ("disgust"%string, a1); ("fear"%string, a2);
    ("happy"%string, a3); ("sad"%string, a4); ("surprise"%string, a5);
    ("neutral"%string, a6) ].

Lemma add_face_basic (a0 a1 a2 a3 a4 a5 a6 : Q) :
  add_face (seven a0 a1 a2 a3 a4 a5 a6) basic
  = seven (a0 + (1 # 10)) (a1 + (1 # 20)) (a2 + (1 # 10)) (a3 + (1 # 5))
          (a4 + (3 # 20)) (a5 + (1 # 10)) (a6 + (3 # 10)).
Proof. reflexivity. Qed.

(** The sums over [n] copies of the fallback scores. *)
Lemma fold_basic (n : nat) :
  forall a0 a1 a2 a3 a4 a5 a6,
  exists b0 b1 b2 b3 b4 b5 b6,
    fold_left add_face (repeat basic n) (seven a0 a1 a2 a3 a4 a5 a6)
    = seven b0 b1 b2 b3 b4 b5 b6 /\
    b0 == a0 + inject_Z (Z.of_nat n) * (1 # 10) /\
    b1 == a1 + inject_Z (Z.of_nat n) * (1 # 20) /\
    b2 == a2 + inject_Z (Z.of_nat n) * (1 # 10) /\
    b3 == a3 + inject_Z (Z.of_nat n) * (1 # 5) /\
    b4 == a4 + inject_Z (Z.of_nat n) * (3 # 20) /\
    b5 == a5 + inject_Z (Z.of_nat n) * (1 # 10) /\
    b6 == a6 + inject_Z (Z.of_nat n) * (3 # 10).
Proof.
  induction n as [|n IH]; intros a0 a1 a2 a3 a4 a5 a6.
  - exists a0, a1, a2, a3, a4, a5, a6. split; [reflexivity|].
    cbn [Z.of_nat]. repeat split; ring.
  - cbn [repeat fold_left]. rewrite add_face_basic.
    destruct (IH (a0 + (1 # 10)) (a1 + (1 # 20)) (a2 + (1 # 10)) (a3 + (1 # 5))
                 (a4 + (3 # 20)) (a5 + (1 # 10)) (a6 + (3 # 10)))
      as (b0 & b1 & b2 & b3 & b4 & b5 & b6 & Hf & H0 & H1 & H2 & H3 & H4 & H5 & H6).
    exists b0, b1, b2, b3, b4, b5, b6. split; [exact Hf|].
    rewrite Nat2Z.inj_succ. unfold Z.succ. rewrite inject_Z_plus.
    rewrite H0, H1, H2, H3, H4, H5, H6.
    repeat split; ring.
Qed.

Lemma Qltb_compat (a a' b b' : Q) : a == a' -> b == b' -> Qltb a b = Qltb a' b'.
Proof. intros Ha Hb. unfold Qltb. now rewrite Ha, Hb. Qed.

(** Among weights equal to the fallback scores [max] picks neutral. *)
Lemma max_of_basic_weights (c0 c1 c2 c3 c4 c5 c6 : Q) :
  c0 == 1 # 10 -> c1 == 1 # 20 -> c2 == 1 # 10 -> c3 == 1 # 5 ->
  c4 == 3 # 20 -> c5 == 1 # 10 -> c6 == 3 # 10 ->
  max_from Qltb snd ("angry"%string, c0)
    [ ("disgust"%string, c1); ("fear"%string, c2); ("happy"%string, c3);
      ("sad"%string, c4); ("surprise"%string, c5); ("neutral"%string, c6) ]
  = ("neutral"%string, c6).
Proof.
  intros H0 H1 H2 H3 H4 H5 H6. cbn [max_from snd].
  rewrite (Qltb_compat _ _ _ _ H0 H1). cbn [Qltb Qle_bool Qnum Qden Z.mul Z.leb
    Z.compare Pos.mul Pos.compare Pos.compare_cont negb].
  rewrite (Qltb_compat _ _ _ _ H0 H2).
  change (Qltb (1 # 10) (1 # 10)) with false. cbv iota.
  rewrite (Qltb_compat _ _ _ _ H0 H3).
  change (Qltb (1 # 10) (1 # 5)) with true. cbv iota.
  rewrite (Qltb_compat _ _ _ _ H3 H4).
  change (Qltb (1 # 5) (3 # 20)) with false. cbv iota.
  rewrite (Qltb_compat _ _ _ _ H3 H5).
  change (Qltb (1 # 5) (1 # 10)) with false. cbv iota.
  rewrite (Qltb_compat _ _ _ _ H3 H6).
  change (Qltb (1 # 5) (3 # 10)) with true. cbv iota.
  reflexivity.
Qed.

(** X23. Without a working library detector every image with a face is
    reported as neutral, without an error, however many faces there are. *)
Theorem fallback_always_says_neutral {Face : Type} (fer_detector : option (Fer Face))
    (faces : list Face) :
  faces <> [] ->
  only_fallback fer_detector faces ->
  let d := detect_emotions_on Face fer_detector faces in
  faces_detected d = List.length faces /\
  dominant_emotion d = "neutral"%string /\
  error d = None.
Proof.
  intros Hne Hfb. cbv zeta. unfold detect_emotions_on.
  rewrite (all_emotions_fallback fer_detector faces Hfb).
  set (n := List.length faces).
  assert (Hn : (0 < n)%nat) by (destruct faces; [congruence | subst n; simpl; lia]).
  destruct (fold_basic n 0 0 0 0 0 0 0)
    as (b0 & b1 & b2 & b3 & b4 & b5 & b6 & Hf & H0 & H1 & H2 & H3 & H4 & H5 & H6).
  assert (Hsums : label_sums (repeat basic n) = seven b0 b1 b2 b3 b4 b5 b6) by exact Hf.
  assert (Hq : 0 < inject_Z (Z.of_nat n)).
  { unfold Qlt. cbn [inject_Z Qnum Qden]. lia. }
  set (q := inject_Z (Z.of_nat n)) in *.
  assert (Htot : total_of (repeat basic n) == q).
  { unfold total_of. rewrite Hsums. unfold seven, py_sum. cbn [map snd fold_left].
    rewrite H0, H1, H2, H3, H4, H5, H6. field. }
  assert (Hpos : 0 < total_of (repeat basic n)) by now rewrite Htot.
  assert (Hnz : ~ q == 0) by lra.
  assert (Hagg : _aggregate_emotions (repeat basic n)
                 = Returned (seven (b0 / total_of (repeat basic n))
                                   (b1 / total_of (repeat basic n))
                                   (b2 / total_of (repeat basic n))
                                   (b3 / total_of (repeat basic n))
                                   (b4 / total_of (repeat basic n))
                                   (b5 / total_of (repeat basic n))
                                   (b6 / total_of (repeat basic n)))).
  { rewrite (aggregate_positive _ Hpos), Hsums. reflexivity. }
  assert (Hrep : repeat basic n <> []) by (destruct n; [lia | discriminate]).
  assert (Hfaces : n <> 0%nat) by lia.
  unfold seven in Hagg.
  rewrite (detect_emotions_scored n (repeat basic n) _ _ Hfaces Hrep Hagg).
  cbn [faces_detected dominant_emotion confidence error emotions].
  assert (E0 : b0 / total_of (repeat basic n) == 1 # 10)
    by (rewrite Htot, H0; field; exact Hnz).
  assert (E1 : b1 / total_of (repeat basic n) == 1 # 20)
    by (rewrite Htot, H1; field; exact Hnz).
  assert (E2 : b2 / total_of (repeat basic n) == 1 # 10)
    by (rewrite Htot, H2; field; exact Hnz).
  assert (E3 : b3 / total_of (repeat basic n) == 1 # 5)
    by (rewrite Htot, H3; field; exact Hnz).
  assert (E4 : b4 / total_of (repeat basic n) == 3 # 20)
    by (rewrite Htot, H4; field; exact Hnz).
  assert (E5 : b5 / total_of (repeat basic n) == 1 # 10)
    by (rewrite Htot, H5; field; exact Hnz).
  assert (E6 : b6 / total_of (repeat basic n) == 3 # 10)
    by (rewrite Htot, H6; field; exact Hnz).
  rewrite (max_of_basic_weights _ _ _ _ _ _ _ E0 E1 E2 E3 E4 E5 E6).
  cbn [fst snd]. repeat split.
Qed.

Lemma fallback_always_says_neutral_witness :
  let d := detect_emotions_on nat None [4%nat; 7%nat; 9%nat] in
  faces_detected d = List.length [4%nat; 7%nat; 9%nat] /\
  dominant_emotion d = "neutral"%string /\
  error d = None.
Proof.
  apply (fallback_always_says_neutral None [4%nat; 7%nat; 9%nat]).
  - discriminate.
  - exact I.
Defined.

End DetectorExtras.

(** ** Replies and the chat endpoint, continued *)

Module ReplyExtras.
Import Py PyStr PyStrFacts BlankFacts Chatbot ClassifierFacts ArbitrationFacts.

(** The pools whose strings are fixed in the source. *)
Definition fixed_pool (pool : list string) : Prop :=
  pool = crisis_responses \/ pool = greeting_responses \/ pool = stress_responses \/
  pool = sadness_responses \/ pool = anger_responses \/ pool = fear_responses \/
  pool = [feeling_probe] \/ pool = [listening_prompt] \/ pool = reflective_responses.

(** X24. The rule-based reply is canned: it is one of the fixed strings, or a
    string of the mismatch pool built from the current emotion, and that
    pool is used only for an emotion that is not empty and not neutral and
    a message that says fine, okay or ok. The text of the message itself
    is never part of the reply. *)
Theorem rule_reply_is_canned (seed : nat) (message : string) (sentiment : Sentiment)
    (ctx : EmotionalContext) :
  exists pool r,
    _generate_rule_based_response seed message sentiment ctx = Returned r /\
    In r pool /\
    (fixed_pool pool \/
     exists emotion,
       pool = mismatch_responses emotion /\
       current ctx = Some emotion /\
       emotion <> ""%string /\ emotion <> "neutral"%string /\
       (contains "fine" (lower message) || contains "okay" (lower message)
        || contains "ok" (lower message) = true)).
Proof.
  assert (Hfix : forall pool : list string, pool <> [] -> fixed_pool pool ->
            exists pool' r, random_choice seed pool = Returned r /\ In r pool' /\
              (fixed_pool pool' \/
               exists emotion,
                 pool' = mismatch_responses emotion /\
                 current ctx = Some emotion /\
                 emotion <> ""%string /\ emotion <> "neutral"%string /\
                 (contains "fine" (lower message) || contains "okay" (lower message)
                  || contains "ok" (lower message) = true))).
  { intros pool Hne Hp. destruct (random_choice_returns seed pool Hne) as (r & Hr & Hin).
    exists pool, r. tauto. }
  unfold _generate_rule_based_response, _select_response. unfold fixed_pool in *.
  repeat match goal with
         | |- context [if ?b then _ else _] =>
             lazymatch b with
             | context [negb] => fail
             | _ => destruct b
             end
         end;
    try (apply Hfix; [discriminate | tauto]).
  - exists [feeling_probe], feeling_probe. cbn [In]. tauto.
  - exists [listening_prompt], listening_prompt. cbn [In]. tauto.
  - destruct (current ctx) as [emotion|]; [|apply Hfix; [discriminate | tauto]].
    destruct (String.eqb_spec emotion "") as [->|He]; cbn [negb andb];
      [apply Hfix; [discriminate | tauto]|].
    destruct (String.eqb_spec emotion "neutral") as [->|Hn]; cbn [negb andb];
      [apply Hfix; [discriminate | tauto]|].
    destruct (contains "fine" (lower message) || contains "okay" (lower message)
              || contains "ok" (lower message)) eqn:Ef;
      [|apply Hfix; [discriminate | tauto]].
    destruct (random_choice_returns seed (mismatch_responses emotion))
      as (r & Hr & Hin); [discriminate|].
    exists (mismatch_responses emotion), r. split; [exact Hr|]. split; [exact Hin|].
    right. now exists emotion.
Qed.

Lemma crisis_reply_flag (chatbot : TherapeuticChatbot) (seed : nat)
    (message : string) (cur : option string) (eh : option (list EmotionRecord))
    (ch : option (list HistoryMessage)) (r : string) :
  openai_client chatbot = None ->
  generate_response chatbot seed message cur eh ch = Returned r ->
  In r crisis_responses ->
  detect_crisis message = true.
Proof.
  intros Hn Hgen Hin.
  rewrite generate_response_unfold in Hgen. cbv zeta in Hgen. rewrite Hn in Hgen.
  destruct (rule_based_spec seed message (sentiment_of message)
              (_build_emotional_context cur eh))
    as (pool & r' & Hr & Hin' & Hcase).
  rewrite Hr in Hgen. inversion Hgen; subst r'. clear Hgen.
  destruct Hcase as [[Hs _]|[_ Hpool]].
  - assert (Ha : _analyze_sentiment message = Returned Crisis)
      by now rewrite analyze_returns, Hs.
    apply analyze_crisis_iff, crisis_hits_pos in Ha.
    destruct Ha as (w & Hw & Hoc). apply detect_crisis_spec.
    exists w. split; [now apply crisis_keywords_are_indicators | exact Hoc].
  - now elim (non_crisis_pool_disjoint pool r Hpool Hin').
Qed.

(** X25. On the chat endpoint without a generator, a reply from the crisis pool
    always comes with the crisis flag set. *)
Theorem crisis_reply_sets_flag (chatbot : TherapeuticChatbot) (seed : nat)
    (data_message : string) (cur : option string) (eh : list EmotionRecord)
    (ch : list HistoryMessage) :
  openai_client chatbot = None ->
  blank data_message = false ->
  exists r,
    App.chat_message chatbot seed data_message cur eh ch
    = App.Ok200 r (detect_crisis (strip data_message)) /\
    (In r crisis_responses -> detect_crisis (strip data_message) = true).
Proof.
  intros Hn Hb. unfold App.chat_message.
  assert (Hs : (strip data_message =? "")%string = false).
  { apply String.eqb_neq. intros E. apply strip_empty_iff in E. congruence. }
  rewrite Hs.
  destruct (ArbitrationExtras.generate_response_returns chatbot seed (strip data_message)
              cur (Some eh) (Some ch)) as (r & Hr).
  exists r. rewrite Hr. split; [reflexivity|].
  intros Hin. exact (crisis_reply_flag _ _ _ _ _ _ _ Hn Hr Hin).
Qed.

Lemma crisis_reply_sets_flag_witness :
  exists r,
    App.chat_message (init None) 0 " I want to die " None [] []
    = App.Ok200 r (detect_crisis (strip " I want to die ")) /\
    (In r crisis_responses -> detect_crisis (strip " I want to die ") = true).
Proof.
  apply (crisis_reply_sets_flag (init None) 0 " I want to die " None [] []);
    reflexivity.
Defined.

(** X26. Blanks around the message never change the answer of the endpoint. *)
Theorem chat_message_ignores_outer_blanks (chatbot : TherapeuticChatbot) (seed : nat)
    (data_message : string) (cur : option string) (eh : list EmotionRecord)
    (ch : list HistoryMessage) :
  App.chat_message chatbot seed (strip data_message) cur eh ch
  = App.chat_message chatbot seed data_message cur eh ch.
Proof. unfold App.chat_message. now rewrite strip_idempotent. Qed.

End ReplyExtras.
